(** * ballyregan: the proxy fetcher and the proxy-list.download provider

    A shallow embedding of [src/ballyregan/fetcher.py] and
    [src/ballyregan/providers/proxy_list_download.py], and the properties of
    the gather / filter / validate pipeline proved over it.

    Python values are modelled as follows.
    - [str] is [string]; the modelled alphabet is ASCII (one [ascii] per code
      point below 128).
    - [int] is [Z].
    - An exception that leaves a function is the [Raise] case of [result].
    - Calls that reach outside the process (the connectivity check, the
      logger, the providers, the HTTP session) are recorded, in call order,
      in the [World] that every effectful function threads.
    - [logger.debug(...)] lines only write log output and are left out. *)

From Stdlib Require Import ZArith Ascii String.
From stdpp Require Import base option list strings gmap fin_maps.

Open Scope string_scope.
Open Scope list_scope.

(** ** Strings *)

Module Str.

Definition colon : ascii := ":"%char.

(** [s + c] for a one-character [c]. *)
Definition snoc (s : string) (c : ascii) : string := s +:+ String c EmptyString.

(** [str.split(sep)] with a one-character separator: every occurrence of
    [sep] ends a field; the empty string has the single field [""]. *)
Fixpoint split_from (sep : ascii) (field : string) (s : string) : list string :=
  match s with
  | EmptyString => [field]
  | String c rest =>
      if Ascii.eqb c sep
      then field :: split_from sep EmptyString rest
      else split_from sep (snoc field c) rest
  end.

Definition split (sep : ascii) (s : string) : list string :=
  split_from sep EmptyString s.

(** Number of occurrences of [c] in [s]. *)
Fixpoint count (c : ascii) (s : string) : nat :=
  match s with
  | EmptyString => 0
  | String d rest => (if Ascii.eqb d c then 1 else 0) + count c rest
  end.

(** [str.join] for a one-character separator. *)
Fixpoint join (sep : ascii) (fields : list string) : string :=
  match fields with
  | [] => EmptyString
  | [f] => f
  | f :: rest => f +:+ String sep (join sep rest)
  end.

(** [str.lower()] on the ASCII alphabet: [A]..[Z] move to [a]..[z]. *)
Definition lower_char (c : ascii) : ascii :=
  let n := N_of_ascii c in
  if ((65 <=? n) && (n <=? 90))%N then ascii_of_N (n + 32) else c.

Fixpoint lower (s : string) : string :=
  match s with
  | EmptyString => EmptyString
  | String c rest => String (lower_char c) (lower rest)
  end.

(** The line boundaries of [str.splitlines()] that lie in ASCII:
    LF, VT, FF, CR, FS, GS, RS (CR LF counts as one boundary). *)
Definition is_linebreak (c : ascii) : bool :=
  let n := N_of_ascii c in
  ((n =? 10) || (n =? 11) || (n =? 12) || (n =? 13)
   || (n =? 28) || (n =? 29) || (n =? 30))%N.

Definition CR : ascii := ascii_of_N 13.
Definition LF : ascii := ascii_of_N 10.

(** [str.splitlines()]: the boundaries are not kept, and a last line is
    produced only when it is not empty. *)
Fixpoint splitlines_from (line : string) (s : string) : list string :=
  match s with
  | EmptyString =>
      match line with EmptyString => [] | _ => [line] end
  | String c rest =>
      if is_linebreak c then
        match rest with
        | String d rest' =>
            if Ascii.eqb c CR && Ascii.eqb d LF
            then line :: splitlines_from EmptyString rest'
            else line :: splitlines_from EmptyString rest
        | EmptyString => line :: splitlines_from EmptyString rest
        end
      else splitlines_from (snoc line c) rest
  end.

Definition splitlines (s : string) : list string :=
  splitlines_from EmptyString s.

(** ASCII decimal digits, as in [str.isdigit()] restricted to ASCII. *)
Definition is_digit (c : ascii) : bool :=
  let n := N_of_ascii c in ((48 <=? n) && (n <=? 57))%N.

Fixpoint all_digits (s : string) : bool :=
  match s with
  | EmptyString => true
  | String c rest => is_digit c && all_digits rest
  end.

End Str.

(** ** Exceptions and results *)

(** The exceptions of [ballyregan.core.exceptions] that the two files name,
    Python's own [AttributeError], and [OtherException] for anything else a
    collaborator may raise (a [requests] error, for instance). *)
Inductive exn : Type :=
| NoInternetConnection
| NoProxiesFound
| ProxyGatherException
| ProxyParseException
| AttributeError
| OtherException (name : string).

Inductive result (A : Type) : Type :=
| Ok (a : A)
| Raise (e : exn).
Arguments Ok {A} a.
Arguments Raise {A} e.

(** ** The data model *)

(** Modelled from the spec: the enumerations of [ballyregan.models] are not
    among the sources.  Section 6: Protocol = {http, https, socks4, socks5};
    Anonymity = {transparent, anonymous, elite}. *)
Inductive Protocols : Type := HTTP | HTTPS | SOCKS4 | SOCKS5.
Inductive Anonymities : Type := TRANSPARENT | ANONYMOUS | ELITE.

Definition Protocols_value (p : Protocols) : string :=
  match p with
  | HTTP => "http" | HTTPS => "https" | SOCKS4 => "socks4" | SOCKS5 => "socks5"
  end.

(** [Protocols.values()] *)
Definition Protocols_values : list string :=
  Protocols_value <$> [HTTP; HTTPS; SOCKS4; SOCKS5].

(** Modelled from the spec: the [Proxy] model is not among the sources.
    Section 3: a candidate is an unvalidated (protocol, address, port) tuple
    parsed from a raw provider string, with an anonymity level that is not
    known before the probe; identity is the triple (protocol, address, port),
    and equality and hashing are defined on this triple.  The three fields
    hold the strings the provider passes. *)
Record Proxy : Type := {
  protocol : string;
  ip : string;
  port : string;
  anonymity : option Anonymities
}.

(** What [Proxy.__eq__] and [Proxy.__hash__] look at. *)
Definition proxy_key (p : Proxy) : string * string * string :=
  (protocol p, ip p, port p).

(** [Proxy(ip=..., port=..., protocol=...)], the fields stored as given. *)
Definition Proxy_init (ip port protocol : string) : result Proxy :=
  Ok {| protocol := protocol; ip := ip; port := port; anonymity := None |}.

(** A [Proxy] constructor that validates its port (any exception but
    [ProxyParseException], which only [raw_proxy_to_object] raises). *)
Definition Proxy_init_validating (ip port protocol : string) : result Proxy :=
  if Str.all_digits port && negb (String.eqb port "")
  then Proxy_init ip port protocol
  else Raise (OtherException "ValidationError").

(** A Python value that [get] or [get_one] can hand to the caller. *)
Inductive pyobj : Type :=
| PyProxy (p : Proxy)
| PyList (l : list Proxy).

(** ** The world outside the process *)

Inductive AbstractEventLoop : Type := EventLoop (id : nat).

Inductive event : Type :=
| init_logger_called (debug : bool)
| has_internet_connection_called
| get_event_loop_called
| ProxyFilterer_created
| ProxyValidator_created (loop : AbstractEventLoop)
| gather_called (provider : string)
| filter_called
| filter_valid_proxies_called (limit : Z)
| session_get_called (url : string) (type : string).

(** The calls made so far, oldest first. *)
Definition World : Type := list event.

(** An effectful computation: it extends the world and returns or raises. *)
Definition M (A : Type) : Type := World → World * result A.

Definition ret {A} (a : A) : M A := λ w, (w, Ok a).
Definition raise {A} (e : exn) : M A := λ w, (w, Raise e).
Definition bind {A B} (m : M A) (k : A → M B) : M B :=
  λ w, match m w with
       | (w', Ok a) => k a w'
       | (w', Raise e) => (w', Raise e)
       end.
Definition emit (e : event) : M unit := λ w, (w ++ [e], Ok tt).
Definition lift {A} (r : result A) : M A := λ w, (w, r).

#[global] Instance M_ret : MRet M := @ret.
#[global] Instance M_bind : MBind M := λ A B k m, bind m k.

(** What a computation returns, and what it calls, started in a world
    where nothing has happened yet. *)
Definition outcome {A} (m : M A) : result A := (m []).2.
Definition calls {A} (m : M A) : list event := (m []).1.

(** ** The collaborators of the fetcher *)

(** [IProxyProvider] is not among the sources.  A provider is given by its
    name and by what one call of its [gather()] produces: the proxies it
    found, or the exception it raises. *)
Record IProxyProvider : Type := {
  provider_name : string;
  gather_outcome : result (list Proxy)
}.

Definition gather (provider : IProxyProvider) : M (list Proxy) :=
  _ ← emit (gather_called (provider_name provider));
  lift (gather_outcome provider).

(** Modelled from the spec: [ProxyFilterer] is not among the sources.
    Section 4.3: the filterer is pure and synchronous. *)
Module ProxyFilterer.
Record t : Type := {
  filter : list Proxy → list Protocols → list Anonymities → list Proxy
}.
End ProxyFilterer.

(** Modelled from the spec: [ProxyValidator] is not among the sources.
    Section 4.4: the validator reports failure only through an empty
    result. *)
Module ProxyValidator.
Record t : Type := {
  loop : AbstractEventLoop;
  filter_valid_proxies : list Proxy → Z → list Proxy
}.
End ProxyValidator.

(** What the imported helpers of [ballyregan.core] and the two constructors
    answer when the fetcher calls them. *)
Record Env : Type := {
  env_has_internet_connection : bool;
  env_get_event_loop : AbstractEventLoop;
  env_ProxyFilterer : ProxyFilterer.t;
  env_ProxyValidator : AbstractEventLoop → ProxyValidator.t
}.

Definition has_internet_connection (env : Env) : M bool :=
  _ ← emit has_internet_connection_called;
  ret (env_has_internet_connection env).

Definition get_event_loop (env : Env) : M AbstractEventLoop :=
  _ ← emit get_event_loop_called;
  ret (env_get_event_loop env).

Definition new_ProxyFilterer (env : Env) : M ProxyFilterer.t :=
  _ ← emit ProxyFilterer_created;
  ret (env_ProxyFilterer env).

Definition new_ProxyValidator (env : Env) (loop : AbstractEventLoop) : M ProxyValidator.t :=
  _ ← emit (ProxyValidator_created loop);
  ret (env_ProxyValidator env loop).

(** [init_logger(debug)] reconfigures the process-wide logger. *)
Definition init_logger (debug : bool) : M unit :=
  emit (init_logger_called debug).

(** ** providers/proxy_list_download.py *)

(** What the provider reads of a [requests.Response]. *)
Record Response : Type := {
  ok : bool;
  text : string
}.

(** [session.get(url, params={'type': t})] returns a response or raises. *)
Record Session : Type := {
  session_get : string → string → result Response
}.

Record ProxyListDownloadProvider : Type := {
  url : string;
  _session : Session
}.

Definition default_url : string := "https://www.proxy-list.download/api/v1/get".

(** The [try] part of the loop body: the request, then the check of
    [response.ok]. *)
Definition request (self : ProxyListDownloadProvider) (protocol : string) : M Response :=
  _ ← emit (session_get_called (url self) protocol);
  response ← lift (session_get (_session self) (url self) protocol);
  if negb (ok response) then raise ProxyGatherException else ret response.

(** [try: ... except Exception: raise ProxyGatherException]: whatever the
    [try] part raises leaves as [ProxyGatherException]. *)
Definition except_Exception_raise {A} (e : exn) (m : M A) : M A :=
  λ w, match m w with
       | (w', Ok a) => (w', Ok a)
       | (w', Raise _) => (w', Raise e)
       end.

(** [[f'{protocol}:{proxy}' for proxy in proxies_result]] *)
Definition with_protocol (protocol : string) (proxies_result : list string) : list string :=
  (λ proxy, protocol +:+ ":" +:+ proxy) <$> proxies_result.

(** The [for] loop of [_get_raw_proxies], [proxies] being the list collected
    so far. *)
Fixpoint _get_raw_proxies_loop (self : ProxyListDownloadProvider)
    (protocols : list string) (proxies : list string) : M (list string) :=
  match protocols with
  | [] => ret proxies
  | protocol :: protocols' =>
      response ← except_Exception_raise ProxyGatherException (request self protocol);
      let proxies_result := Str.splitlines (text response) in
      let proxies_with_protocol := with_protocol protocol proxies_result in
      _get_raw_proxies_loop self protocols' (proxies ++ proxies_with_protocol)
  end.

(** [_get_raw_proxies], over the protocols that [Protocols.values()] lists. *)
Definition _get_raw_proxies (values : list string) (self : ProxyListDownloadProvider)
    : M (list string) :=
  _get_raw_proxies_loop self values [].

(** [raw_proxy_to_object]; [new_Proxy ip port protocol] is the call
    [Proxy(ip=ip, port=port, protocol=protocol)] of the model class. *)
Definition raw_proxy_to_object (new_Proxy : string → string → string → result Proxy)
    (raw_proxy : string) : result Proxy :=
  match Str.split Str.colon raw_proxy with
  | [protocol; ip; port] => new_Proxy ip port (Str.lower protocol)
  | _ => Raise ProxyParseException
  end.

(** ** fetcher.py *)

Record ProxyFetcher : Type := {
  _proxy_providers : list IProxyProvider;
  _proxy_validator : option ProxyValidator.t;
  _proxy_filterer : option ProxyFilterer.t;
  loop : option AbstractEventLoop;
  debug : bool
}.

(** The five attributes of the dataclass, with the type of value each one
    holds. *)
Inductive attr : Type :=
| attr_proxy_providers
| attr_proxy_validator
| attr_proxy_filterer
| attr_loop
| attr_debug.

Definition attr_name (a : attr) : string :=
  match a with
  | attr_proxy_providers => "_proxy_providers"
  | attr_proxy_validator => "_proxy_validator"
  | attr_proxy_filterer => "_proxy_filterer"
  | attr_loop => "loop"
  | attr_debug => "debug"
  end.

Definition attr_type (a : attr) : Type :=
  match a with
  | attr_proxy_providers => list IProxyProvider
  | attr_proxy_validator => option ProxyValidator.t
  | attr_proxy_filterer => option ProxyFilterer.t
  | attr_loop => option AbstractEventLoop
  | attr_debug => bool
  end.

Definition getattr (self : ProxyFetcher) (a : attr) : attr_type a :=
  match a with
  | attr_proxy_providers => _proxy_providers self
  | attr_proxy_validator => _proxy_validator self
  | attr_proxy_filterer => _proxy_filterer self
  | attr_loop => loop self
  | attr_debug => debug self
  end.

(** [super().__setattr__(name, value)]: the plain store of [object]. *)
Definition object_setattr (self : ProxyFetcher) (a : attr) : attr_type a → ProxyFetcher :=
  match a with
  | attr_proxy_providers => λ v,
      {| _proxy_providers := v; _proxy_validator := _proxy_validator self;
         _proxy_filterer := _proxy_filterer self; loop := loop self; debug := debug self |}
  | attr_proxy_validator => λ v,
      {| _proxy_providers := _proxy_providers self; _proxy_validator := v;
         _proxy_filterer := _proxy_filterer self; loop := loop self; debug := debug self |}
  | attr_proxy_filterer => λ v,
      {| _proxy_providers := _proxy_providers self; _proxy_validator := _proxy_validator self;
         _proxy_filterer := v; loop := loop self; debug := debug self |}
  | attr_loop => λ v,
      {| _proxy_providers := _proxy_providers self; _proxy_validator := _proxy_validator self;
         _proxy_filterer := _proxy_filterer self; loop := v; debug := debug self |}
  | attr_debug => λ v,
      {| _proxy_providers := _proxy_providers self; _proxy_validator := _proxy_validator self;
         _proxy_filterer := _proxy_filterer self; loop := loop self; debug := v |}
  end.

(** [__setattr__]: the test [__name == 'debug'] picks out [attr_debug]. *)
Definition __setattr__ (self : ProxyFetcher) (__name : attr) : attr_type __name → M ProxyFetcher :=
  match __name with
  | attr_debug => λ __value,
      _ ← init_logger __value;
      ret (object_setattr self attr_debug __value)
  | a => λ __value, ret (object_setattr self a __value)
  end.

(** [__new_validator]: the validator, and [self] with the loop it may have
    been given. *)
Definition __new_validator (env : Env) (self : ProxyFetcher)
    : M (ProxyFetcher * ProxyValidator.t) :=
  match loop self with
  | Some l =>
      validator ← new_ProxyValidator env l;
      ret (self, validator)
  | None =>
      l ← get_event_loop env;
      self ← __setattr__ self attr_loop (Some l);
      validator ← new_ProxyValidator env l;
      ret (self, validator)
  end.

(** [__post_init__]; a filterer, a validator or a loop is a true value, and
    [None] is a false one. *)
Definition __post_init__ (env : Env) (self : ProxyFetcher) : M ProxyFetcher :=
  online ← has_internet_connection env;
  if negb online then raise NoInternetConnection else
  self ← match _proxy_filterer self with
         | Some _ => ret self
         | None =>
             filterer ← new_ProxyFilterer env;
             __setattr__ self attr_proxy_filterer (Some filterer)
         end;
  match _proxy_validator self with
  | Some _ => ret self
  | None =>
      '(self, validator) ← __new_validator env self;
      __setattr__ self attr_proxy_validator (Some validator)
  end.

(** An instance before the generated [__init__] has assigned anything:
    reading a field gives the class-level default. *)
Definition blank : ProxyFetcher :=
  {| _proxy_providers := []; _proxy_validator := None; _proxy_filterer := None;
     loop := None; debug := false |}.

(** The [__init__] that [@dataclass] generates: the five fields are assigned
    in declaration order, each through [__setattr__], then [__post_init__]
    runs. *)
Definition __init__ (env : Env) (_proxy_providers : list IProxyProvider)
    (_proxy_validator : option ProxyValidator.t)
    (_proxy_filterer : option ProxyFilterer.t)
    (loop : option AbstractEventLoop) (debug : bool) : M ProxyFetcher :=
  self ← __setattr__ blank attr_proxy_providers _proxy_providers;
  self ← __setattr__ self attr_proxy_validator _proxy_validator;
  self ← __setattr__ self attr_proxy_filterer _proxy_filterer;
  self ← __setattr__ self attr_loop loop;
  self ← __setattr__ self attr_debug debug;
  __post_init__ env self.

(** [executor.map(lambda provider: provider.gather(), providers)] inside the
    [with] block: every provider's [gather()] is called and has finished
    when the block is left; what each call produced is kept, in provider
    order, for the iteration that follows.  The calls are listed in provider
    order, whatever their interleaving was. *)
Fixpoint executor_map (providers : list IProxyProvider)
    : M (list (result (list Proxy))) :=
  match providers with
  | [] => ret []
  | provider :: providers' =>
      λ w, let '(w', r) := gather provider w in
           bind (executor_map providers') (λ rs, ret (r :: rs)) w'
  end.

(** [chain.from_iterable(proxies_generator)], consumed to the end: the
    results are taken in provider order, and taking the result of a call
    that raised raises its exception. *)
Fixpoint chain_from_iterable (proxies_generator : list (result (list Proxy)))
    : result (list Proxy) :=
  match proxies_generator with
  | [] => Ok []
  | Ok proxies :: rest =>
      match chain_from_iterable rest with
      | Ok proxies' => Ok (proxies ++ proxies')
      | Raise e => Raise e
      end
  | Raise e :: _ => Raise e
  end.

(** [set.add]: an element equal to one already in the set is not stored. *)
Definition set_add (s : gmap (string * string * string) Proxy) (p : Proxy)
    : gmap (string * string * string) Proxy :=
  match s !! proxy_key p with
  | Some _ => s
  | None => <[proxy_key p := p]> s
  end.

(** [set(iterable)] of proxies: a set whose elements are told apart by
    [Proxy.__eq__], held as a map from the key to the element stored. *)
Definition set_of (proxies : list Proxy) : gmap (string * string * string) Proxy :=
  foldl set_add ∅ proxies.

(** [list(s)]: the elements, in the order the set enumerates them.  Python
    leaves that order to the hashes; here it is the order of the map, and
    no property below depends on it. *)
Definition list_of_set (s : gmap (string * string * string) Proxy) : list Proxy :=
  (map_to_list s).*2.

Definition _get_all_proxies_from_providers (self : ProxyFetcher) : M (list Proxy) :=
  proxies_generator ← executor_map (_proxy_providers self);
  proxies ← lift (chain_from_iterable proxies_generator);
  ret (list_of_set (set_of proxies)).

(** Reading [self.<attr>.<method>] when the attribute holds [None]. *)
Definition method_of {A} (o : option A) : M A :=
  match o with
  | Some a => ret a
  | None => raise AttributeError
  end.

Definition _gather (self : ProxyFetcher) (protocols : list Protocols)
    (anonymities : list Anonymities) (limit : Z) : M (list Proxy) :=
  proxies ← _get_all_proxies_from_providers self;
  filterer ← method_of (_proxy_filterer self);
  _ ← emit filter_called;
  let filtered_proxies := ProxyFilterer.filter filterer proxies protocols anonymities in
  validator ← method_of (_proxy_validator self);
  _ ← emit (filter_valid_proxies_called limit);
  let valid_proxies := ProxyValidator.filter_valid_proxies validator filtered_proxies limit in
  match valid_proxies with
  | [] => raise NoProxiesFound
  | _ => ret valid_proxies
  end.

Definition get_one (self : ProxyFetcher) (protocols : list Protocols)
    (anonymities : list Anonymities) : M pyobj :=
  proxies ← _gather self protocols anonymities 1;
  ret (PyList proxies).

Definition get (self : ProxyFetcher) (protocols : list Protocols)
    (anonymities : list Anonymities) (limit : Z) : M pyobj :=
  proxies ← _gather self protocols anonymities limit;
  ret (PyList proxies).

(** ** Sample values *)

Module Sample.

Definition proxy_a : Proxy :=
  {| protocol := "http"; ip := "1.2.3.4"; port := "8080"; anonymity := None |}.
Definition proxy_a_elite : Proxy :=
  {| protocol := "http"; ip := "1.2.3.4"; port := "8080"; anonymity := Some ELITE |}.
Definition proxy_b : Proxy :=
  {| protocol := "socks5"; ip := "5.6.7.8"; port := "1080"; anonymity := None |}.

Definition provider_up : IProxyProvider :=
  {| provider_name := "up"; gather_outcome := Ok [proxy_a; proxy_b] |}.
Definition provider_twin : IProxyProvider :=
  {| provider_name := "twin"; gather_outcome := Ok [proxy_a_elite; proxy_a] |}.
Definition provider_single : IProxyProvider :=
  {| provider_name := "single"; gather_outcome := Ok [proxy_a] |}.
Definition provider_down : IProxyProvider :=
  {| provider_name := "down"; gather_outcome := Raise ProxyGatherException |}.

(** A filterer that lets every candidate through. *)
Definition filterer : ProxyFilterer.t :=
  {| ProxyFilterer.filter := λ proxies _ _, proxies |}.

(** A validator for which every probe succeeds: it confirms the first
    [limit] candidates, or all of them when [limit] is 0. *)
Definition validator (l : AbstractEventLoop) : ProxyValidator.t :=
  {| ProxyValidator.loop := l;
     ProxyValidator.filter_valid_proxies := λ proxies limit,
       if (limit =? 0)%Z then proxies else take (Z.to_nat limit) proxies |}.

(** A validator for which every probe fails. *)
Definition validator_dead (l : AbstractEventLoop) : ProxyValidator.t :=
  {| ProxyValidator.loop := l;
     ProxyValidator.filter_valid_proxies := λ _ _, [] |}.

Definition env (online : bool) : Env :=
  {| env_has_internet_connection := online;
     env_get_event_loop := EventLoop 0;
     env_ProxyFilterer := filterer;
     env_ProxyValidator := validator |}.

Definition fetcher (providers : list IProxyProvider) : ProxyFetcher :=
  {| _proxy_providers := providers;
     _proxy_validator := Some (validator (EventLoop 0));
     _proxy_filterer := Some filterer;
     loop := Some (EventLoop 0);
     debug := false |}.

Definition fetcher_dead (providers : list IProxyProvider) : ProxyFetcher :=
  {| _proxy_providers := providers;
     _proxy_validator := Some (validator_dead (EventLoop 0));
     _proxy_filterer := Some filterer;
     loop := Some (EventLoop 0);
     debug := false |}.

(** A session that answers every request with the same two lines, and
    one whose [socks4] request comes back with a status that is not ok. *)
Definition two_lines : string :=
  "1.2.3.4:8080" +:+ String Str.LF ("5.6.7.8:1080" +:+ String Str.LF EmptyString).

Definition session_up : Session :=
  {| session_get := λ _ _, Ok {| ok := true; text := two_lines |} |}.
Definition session_socks4_down : Session :=
  {| session_get := λ _ type,
       if String.eqb type "socks4"
       then Ok {| ok := false; text := two_lines |}
       else Ok {| ok := true; text := two_lines |} |}.
Definition session_https_raises : Session :=
  {| session_get := λ _ type,
       if String.eqb type "https"
       then Raise (OtherException "ConnectionError")
       else Ok {| ok := true; text := two_lines |} |}.

Definition download (s : Session) : ProxyListDownloadProvider :=
  {| url := default_url; _session := s |}.

End Sample.

(** Following the spec's words (section 6): a raw string is malformed when
    it does not have three ':'-separated fields or when its port is not
    numeric. *)
Definition spec_malformed (raw_proxy : string) : bool :=
  match Str.split Str.colon raw_proxy with
  | [_; _; port] => negb (Str.all_digits port && negb (String.eqb port ""))
  | _ => true
  end.

(** Following the spec's words (section 4.2): a provider whose [gather()]
    fails contributes nothing, and the others are merged. *)
Definition contribution (provider : IProxyProvider) : list Proxy :=
  match gather_outcome provider with
  | Ok proxies => proxies
  | Raise _ => []
  end.

Definition spec_aggregate (providers : list IProxyProvider) : list Proxy :=
  list_of_set (set_of (providers ≫= contribution)).

(** Every element of the set is stored under its own key. *)
Definition keyed (s : gmap (string * string * string) Proxy) : Prop :=
  ∀ k p, s !! k = Some p → proxy_key p = k.

(** A value that a call of [get] or of [get_one] may hand to its caller: a
    [Proxy], or a list of proxies that is not empty. *)
Definition valid_result (v : pyobj) : Prop :=
  match v with
  | PyProxy _ => True
  | PyList proxies => proxies ≠ []
  end.

(** The two ways a call ends when no provider fails: with a [Proxy] or a
    list of proxies, or with the "no proxies found" error. *)
Definition found_or_not (r : result pyobj) : Prop :=
  (∃ v, r = Ok v ∧ valid_result v) ∨ r = Raise NoProxiesFound.

(** What a caller of [get] or [get_one] can get back from a fetcher with
    the given providers: a [Proxy] or a list of proxies, the "no proxies
    found" error, or the exception that the [gather()] of one of the
    providers raised. *)
Definition caller_sees (providers : list IProxyProvider) (r : result pyobj) : Prop :=
  found_or_not r
  ∨ (∃ provider e, provider ∈ providers ∧ gather_outcome provider = Raise e
                   ∧ r = Raise e).

(** A provider whose [gather()] returns. *)
Definition returns (provider : IProxyProvider) : Prop :=
  ∃ proxies, gather_outcome provider = Ok proxies.

(** The calls that are pipeline work: gathering, filtering, validating. *)
Definition pipeline_work (e : event) : bool :=
  match e with
  | gather_called _ | filter_called | filter_valid_proxies_called _
  | session_get_called _ _ => true
  | _ => false
  end.

(** A request of the download provider that succeeds: the session returns
    a response, and its status is ok. *)
Definition request_succeeds (self : ProxyListDownloadProvider) (protocol : string) : Prop :=
  ∃ response, session_get (_session self) (url self) protocol = Ok response
              ∧ ok response = true.

(** The lines the download provider adds for one protocol. *)
Definition lines_of (self : ProxyListDownloadProvider) (protocol : string) : list string :=
  match session_get (_session self) (url self) protocol with
  | Ok response => with_protocol protocol (Str.splitlines (text response))
  | Raise _ => []
  end.

(** The loop of the validator that [__new_validator] builds. *)
Definition loop_or_new (env : Env) (loop : option AbstractEventLoop) : AbstractEventLoop :=
  match loop with
  | Some l => l
  | None => env_get_event_loop env
  end.

(** What the construction calls after the connectivity check. *)
Definition construction_calls (env : Env) (validator : option ProxyValidator.t)
    (filterer : option ProxyFilterer.t) (loop : option AbstractEventLoop) : list event :=
  match filterer with Some _ => [] | None => [ProxyFilterer_created] end
  ++ match validator with
     | Some _ => []
     | None =>
         match loop with Some _ => [] | None => [get_event_loop_called] end
         ++ [ProxyValidator_created (loop_or_new env loop)]
     end.

(** The fetcher that a construction with connectivity gives. *)
Definition constructed (env : Env) (providers : list IProxyProvider)
    (validator : option ProxyValidator.t) (filterer : option ProxyFilterer.t)
    (loop : option AbstractEventLoop) (debug : bool) : ProxyFetcher :=
  {| _proxy_providers := providers;
     _proxy_validator :=
       Some (default (env_ProxyValidator env (loop_or_new env loop)) validator);
     _proxy_filterer := Some (default (env_ProxyFilterer env) filterer);
     loop := match validator with
             | Some _ => loop
             | None => Some (loop_or_new env loop)
             end;
     debug := debug |}.

(** [s] holds none of the line boundaries of [str.splitlines()]. *)
Fixpoint single_line (s : string) : bool :=
  match s with
  | EmptyString => true
  | String c rest => negb (Str.is_linebreak c) && single_line rest
  end.

(** The values that the calls of [init_logger] recorded in a world were
    given, oldest first. *)
Definition init_logger_calls (w : World) : list bool :=
  omap (λ e, match e with init_logger_called d => Some d | _ => None end) w.

(** The calls of one run of the aggregation step. *)
Definition gather_calls (self : ProxyFetcher) : list event :=
  gather_called ∘ provider_name <$> _proxy_providers self.

(** A validator for which every probe succeeds and that takes no notice of
    the limit. *)
Definition sample_validator_unbounded (l : AbstractEventLoop) : ProxyValidator.t :=
  {| ProxyValidator.loop := l;
     ProxyValidator.filter_valid_proxies := λ proxies _, proxies |}.

Definition sample_fetcher_unbounded (providers : list IProxyProvider) : ProxyFetcher :=
  {| _proxy_providers := providers;
     _proxy_validator := Some (sample_validator_unbounded (EventLoop 0));
     _proxy_filterer := Some Sample.filterer;
     loop := Some (EventLoop 0);
     debug := false |}.

(** * Properties *)

(** ** Strings *)

Example split_three : Str.split Str.colon "http:1.2.3.4:8080" = ["http"; "1.2.3.4"; "8080"].
Proof. reflexivity. Qed.

Example split_empty : Str.split Str.colon "" = [""].
Proof. reflexivity. Qed.

Example split_empty_field : Str.split Str.colon "a::c" = ["a"; ""; "c"].
Proof. reflexivity. Qed.

Example lower_mixed : Str.lower "SoCkS5" = "socks5".
Proof. reflexivity. Qed.

Example splitlines_crlf :
  Str.splitlines (String "a" (String Str.CR (String Str.LF (String "b" (String Str.LF EmptyString)))))
  = ["a"; "b"].
Proof. reflexivity. Qed.

Example splitlines_blank :
  Str.splitlines (String "a" (String Str.LF (String Str.CR (String "b" EmptyString))))
  = ["a"; ""; "b"].
Proof. reflexivity. Qed.

Example splitlines_nothing : Str.splitlines "" = [].
Proof. reflexivity. Qed.

Lemma ascii_eqb_colon (c : ascii) : Ascii.eqb c Str.colon = true ↔ c = Str.colon.
Proof. apply Ascii.eqb_eq. Qed.

Lemma append_nil (t : string) : "" +:+ t = t.
Proof. reflexivity. Qed.

Lemma append_cons (c : ascii) (s t : string) : String c s +:+ t = String c (s +:+ t).
Proof. reflexivity. Qed.

Lemma count_app (c : ascii) (s t : string) :
  Str.count c (s +:+ t) = Str.count c s + Str.count c t.
Proof.
  induction s as [|d s IH]; [done|].
  rewrite append_cons. simpl. rewrite IH. lia.
Qed.

Lemma count_snoc_other (c d : ascii) (s : string) :
  Ascii.eqb d c = false → Str.count c (Str.snoc s d) = Str.count c s.
Proof.
  intros Hd. unfold Str.snoc. rewrite count_app. simpl. rewrite Hd. lia.
Qed.

Lemma app_snoc (field : string) (c : ascii) (rest : string) :
  Str.snoc field c +:+ rest = field +:+ String c rest.
Proof.
  unfold Str.snoc. induction field as [|d field IH]; [done|].
  rewrite !append_cons. by rewrite IH.
Qed.

Lemma app_empty_r (s : string) : s +:+ "" = s.
Proof.
  induction s as [|c s IH]; [done|].
  rewrite append_cons. by rewrite IH.
Qed.

(** The number of fields is one more than the number of separators. *)
Lemma split_from_length (sep : ascii) (s field : string) :
  length (Str.split_from sep field s) = S (Str.count sep s).
Proof.
  revert field. induction s as [|c s IH]; intros field; simpl; [done|].
  destruct (Ascii.eqb c sep); simpl; by rewrite IH.
Qed.

Lemma join_cons (sep : ascii) (f g : string) (l : list string) :
  Str.join sep (f :: g :: l) = f +:+ String sep (Str.join sep (g :: l)).
Proof. reflexivity. Qed.

(** Joining the fields with the separator gives the string back. *)
Lemma join_split_from (sep : ascii) (s field : string) :
  Str.join sep (Str.split_from sep field s) = field +:+ s.
Proof.
  revert field. induction s as [|c s IH]; intros field; simpl.
  - by rewrite app_empty_r.
  - destruct (Ascii.eqb c sep) eqn:Hc.
    + apply Ascii.eqb_eq in Hc as ->.
      specialize (IH "").
      destruct (Str.split_from sep "" s) as [|g l] eqn:Hs.
      * pose proof (split_from_length sep s "") as Hl. rewrite Hs in Hl. done.
      * rewrite join_cons, IH. by rewrite append_nil.
    + rewrite IH. apply app_snoc.
Qed.

(** No field holds a separator. *)
Lemma split_from_fields (sep : ascii) (s field : string) :
  Str.count sep field = 0 →
  Forall (λ f, Str.count sep f = 0) (Str.split_from sep field s).
Proof.
  revert field. induction s as [|c s IH]; intros field Hf; simpl.
  - by constructor.
  - destruct (Ascii.eqb c sep) eqn:Hc.
    + constructor; [done|]. by apply IH.
    + apply IH. by rewrite count_snoc_other.
Qed.

(** A string with two separators splits into its three fields. *)
Lemma split_three_fields (raw : string) :
  Str.count Str.colon raw = 2 →
  ∃ protocol ip port,
    Str.split Str.colon raw = [protocol; ip; port]
    ∧ raw = protocol +:+ ":" +:+ ip +:+ ":" +:+ port
    ∧ Str.count Str.colon protocol = 0
    ∧ Str.count Str.colon ip = 0
    ∧ Str.count Str.colon port = 0.
Proof.
  intros Hc. unfold Str.split.
  pose proof (split_from_length Str.colon raw "") as Hl.
  pose proof (join_split_from Str.colon raw "") as Hj.
  pose proof (split_from_fields Str.colon raw "" eq_refl) as Hf.
  rewrite Hc in Hl.
  destruct (Str.split_from Str.colon "" raw) as [|a [|b [|c [|d l]]]]; try done.
  exists a, b, c. split; [done|].
  apply Forall_cons in Hf as [Ha Hf].
  apply Forall_cons in Hf as [Hb Hf].
  apply Forall_cons in Hf as [Hc' _].
  rewrite append_nil in Hj. by rewrite <- Hj.
Qed.

(** ** The monad *)

Lemma bind_ok {A B} (m : M A) (k : A → M B) (w w' : World) (a : A) :
  m w = (w', Ok a) → (m ≫= k) w = k a w'.
Proof. intros H. unfold mbind, M_bind, bind. by rewrite H. Qed.

Lemma bind_raise {A B} (m : M A) (k : A → M B) (w w' : World) (e : exn) :
  m w = (w', Raise e) → (m ≫= k) w = (w', Raise e).
Proof. intros H. unfold mbind, M_bind, bind. by rewrite H. Qed.

Lemma bind_emit {B} (e : event) (k : unit → M B) (w : World) :
  (emit e ≫= k) w = k tt (w ++ [e]).
Proof. reflexivity. Qed.

Lemma bind_ret {A B} (a : A) (k : A → M B) (w : World) :
  (ret a ≫= k) w = k a w.
Proof. reflexivity. Qed.

(** A list all of whose elements pass, or its first element that fails. *)
Lemma first_failure {A} (P : A → Prop) (l : list A) :
  (∀ x, P x ∨ ¬ P x) →
  Forall P l ∨ ∃ pre x post, l = pre ++ x :: post ∧ Forall P pre ∧ ¬ P x.
Proof.
  intros Hdec. induction l as [|x l IH].
  - left. constructor.
  - destruct (Hdec x) as [Hx|Hx].
    + destruct IH as [IH|(pre & y & post & -> & Hpre & Hy)].
      * left. by constructor.
      * right. exists (x :: pre), y, post. split; [done|]. split; [by constructor|done].
    + right. exists [], x, l. split; [done|]. split; [constructor|done].
Qed.

(** ** providers/proxy_list_download.py *)

Lemma request_succeeds_dec (self : ProxyListDownloadProvider) (protocol : string) :
  request_succeeds self protocol ∨ ¬ request_succeeds self protocol.
Proof.
  unfold request_succeeds.
  destruct (session_get (_session self) (url self) protocol) as [response|e] eqn:Hget.
  - destruct (ok response) eqn:Hok.
    + left. by exists response.
    + right. intros (r & [= <-] & Hr). congruence.
  - right. by intros (r & [=] & _).
Qed.

(** One pass of the loop body whose request succeeds: the request is made
    and the response is handed on. *)
Lemma request_ok (self : ProxyListDownloadProvider) (protocol : string) (w : World) :
  request_succeeds self protocol →
  ∃ response,
    session_get (_session self) (url self) protocol = Ok response
    ∧ except_Exception_raise ProxyGatherException (request self protocol) w
      = (w ++ [session_get_called (url self) protocol], Ok response).
Proof.
  intros (response & Hget & Hok). exists response. split; [done|].
  unfold except_Exception_raise, request.
  rewrite bind_emit. unfold mbind, M_bind, bind, lift.
  rewrite Hget, Hok. reflexivity.
Qed.

(** One pass whose request fails, by an exception or by a status that is
    not ok: the request is made and [ProxyGatherException] leaves. *)
Lemma request_fails (self : ProxyListDownloadProvider) (protocol : string) (w : World) :
  ¬ request_succeeds self protocol →
  except_Exception_raise ProxyGatherException (request self protocol) w
  = (w ++ [session_get_called (url self) protocol], Raise ProxyGatherException).
Proof.
  intros Hfail. unfold except_Exception_raise, request.
  rewrite bind_emit. unfold mbind, M_bind, bind, lift.
  destruct (session_get (_session self) (url self) protocol) as [response|e] eqn:Hget; [|done].
  destruct (ok response) eqn:Hok; [|done].
  destruct Hfail. by exists response.
Qed.

Lemma loop_all_succeed (self : ProxyListDownloadProvider) (protocols : list string)
    (proxies : list string) (w : World) :
  Forall (request_succeeds self) protocols →
  _get_raw_proxies_loop self protocols proxies w
  = (w ++ (session_get_called (url self) <$> protocols),
     Ok (proxies ++ (protocols ≫= lines_of self))).
Proof.
  intros Hall. revert proxies w.
  induction Hall as [|protocol protocols Hp _ IH]; intros proxies w.
  - simpl. by rewrite !app_nil_r.
  - destruct (request_ok self protocol w Hp) as (response & Hget & Hrun).
    cbn [_get_raw_proxies_loop]. rewrite (bind_ok _ _ _ _ _ Hrun), IH.
    rewrite fmap_cons, bind_cons. unfold lines_of at 2. rewrite Hget.
    by rewrite <- !app_assoc.
Qed.

Lemma loop_first_failure (self : ProxyListDownloadProvider)
    (pre : list string) (protocol : string) (post : list string)
    (proxies : list string) (w : World) :
  Forall (request_succeeds self) pre →
  ¬ request_succeeds self protocol →
  _get_raw_proxies_loop self (pre ++ protocol :: post) proxies w
  = (w ++ (session_get_called (url self) <$> pre ++ [protocol]),
     Raise ProxyGatherException).
Proof.
  intros Hpre Hfail. revert proxies w.
  induction Hpre as [|p pre Hp _ IH]; intros proxies w.
  - cbn [app _get_raw_proxies_loop].
    by rewrite (bind_raise _ _ _ _ _ (request_fails self protocol w Hfail)).
  - destruct (request_ok self p w Hp) as (response & Hget & Hrun).
    rewrite <- app_comm_cons. cbn [_get_raw_proxies_loop].
    rewrite (bind_ok _ _ _ _ _ Hrun), IH.
    by rewrite <- app_comm_cons, fmap_cons, <- app_assoc.
Qed.

(** C10: [_get_raw_proxies] asks for the protocols in list order.  When
    every request succeeds it returns the lines of all of them, each with
    its protocol in front; at the first request that raises or comes back
    with a status that is not ok it stops with [ProxyGatherException], and
    what the earlier protocols gave is lost.  It returns a list exactly
    when every request succeeds. *)
Theorem get_raw_proxies_all_or_nothing (values : list string)
    (self : ProxyListDownloadProvider) (w : World) :
  (Forall (request_succeeds self) values →
     _get_raw_proxies values self w
     = (w ++ (session_get_called (url self) <$> values),
        Ok (values ≫= lines_of self)))
  ∧ (∀ pre protocol post,
       values = pre ++ protocol :: post →
       Forall (request_succeeds self) pre →
       ¬ request_succeeds self protocol →
       _get_raw_proxies values self w
       = (w ++ (session_get_called (url self) <$> pre ++ [protocol]),
          Raise ProxyGatherException))
  ∧ ((∃ proxies, (_get_raw_proxies values self w).2 = Ok proxies)
     ↔ Forall (request_succeeds self) values).
Proof.
  unfold _get_raw_proxies. split; [|split].
  - intros Hall. by rewrite loop_all_succeed.
  - intros pre protocol post -> Hpre Hfail. by apply loop_first_failure.
  - split.
    + intros [proxies Hrun].
      destruct (first_failure (request_succeeds self) values
                  (request_succeeds_dec self))
        as [Hall|(pre & p & post & -> & Hpre & Hfail)]; [done|].
      by rewrite loop_first_failure in Hrun.
    + intros Hall. rewrite loop_all_succeed by done. by eexists.
Qed.

Lemma sample_requests_succeed :
  Forall (request_succeeds (Sample.download Sample.session_up)) Protocols_values.
Proof.
  repeat constructor;
    by (exists {| ok := true; text := Sample.two_lines |}).
Qed.

Lemma sample_socks4_fails :
  ¬ request_succeeds (Sample.download Sample.session_socks4_down) "socks4".
Proof. intros (response & [= <-] & Hok). discriminate Hok. Qed.

Lemma sample_before_socks4 :
  Forall (request_succeeds (Sample.download Sample.session_socks4_down)) ["http"; "https"].
Proof.
  repeat constructor;
    by (exists {| ok := true; text := Sample.two_lines |}).
Qed.

Lemma get_raw_proxies_all_or_nothing_witness :
  _get_raw_proxies Protocols_values (Sample.download Sample.session_up) []
  = (session_get_called default_url <$> Protocols_values,
     Ok ["http:1.2.3.4:8080"; "http:5.6.7.8:1080"; "https:1.2.3.4:8080";
         "https:5.6.7.8:1080"; "socks4:1.2.3.4:8080"; "socks4:5.6.7.8:1080";
         "socks5:1.2.3.4:8080"; "socks5:5.6.7.8:1080"])
  ∧ _get_raw_proxies Protocols_values (Sample.download Sample.session_socks4_down) []
    = (session_get_called default_url <$> ["http"; "https"; "socks4"],
       Raise ProxyGatherException)
  ∧ ∃ proxies,
      (_get_raw_proxies Protocols_values (Sample.download Sample.session_up) []).2
      = Ok proxies.
Proof.
  split; [|split].
  - apply (proj1 (get_raw_proxies_all_or_nothing Protocols_values
                    (Sample.download Sample.session_up) [])).
    exact sample_requests_succeed.
  - apply (proj1 (proj2 (get_raw_proxies_all_or_nothing Protocols_values
                           (Sample.download Sample.session_socks4_down) []))
             ["http"; "https"] "socks4" ["socks5"]).
    + reflexivity.
    + exact sample_before_socks4.
    + exact sample_socks4_fails.
  - apply (proj2 (proj2 (proj2 (get_raw_proxies_all_or_nothing Protocols_values
                                  (Sample.download Sample.session_up) [])))).
    exact sample_requests_succeed.
Defined.

(** [raw_proxy_to_object] on a string that does not have three fields. *)
Lemma raw_proxy_to_object_wrong_count
    (new_Proxy : string → string → string → result Proxy) (raw_proxy : string) :
  length (Str.split Str.colon raw_proxy) ≠ 3 →
  raw_proxy_to_object new_Proxy raw_proxy = Raise ProxyParseException.
Proof.
  unfold raw_proxy_to_object.
  by destruct (Str.split Str.colon raw_proxy) as [|a [|b [|c [|d l]]]].
Qed.

(** [raw_proxy_to_object] on a string that has three fields. *)
Lemma raw_proxy_to_object_three_fields
    (new_Proxy : string → string → string → result Proxy) (raw_proxy : string) :
  length (Str.split Str.colon raw_proxy) = 3 →
  ∃ protocol ip port,
    raw_proxy = protocol +:+ ":" +:+ ip +:+ ":" +:+ port
    ∧ Str.count Str.colon protocol = 0
    ∧ Str.count Str.colon ip = 0
    ∧ Str.count Str.colon port = 0
    ∧ raw_proxy_to_object new_Proxy raw_proxy = new_Proxy ip port (Str.lower protocol).
Proof.
  intros Hlen. unfold Str.split in Hlen. rewrite split_from_length in Hlen.
  destruct (split_three_fields raw_proxy) as (protocol & ip & port & Hs & Hraw & H1 & H2 & H3);
    [lia|].
  exists protocol, ip, port. repeat split; try done.
  unfold raw_proxy_to_object. by rewrite Hs.
Qed.

(** C7 (amended): [raw_proxy_to_object] raises [ProxyParseException] when
    the number of ':'-separated fields is not three.  With three fields it
    looks at none of them: it returns what the [Proxy] constructor gives for
    the address, the port as it stands and the lowercased protocol; with a
    constructor that stores its arguments that is a candidate, and the call
    raises [ProxyParseException] exactly when the field count is wrong. *)
Theorem raw_proxy_to_object_checks_field_count
    (new_Proxy : string → string → string → result Proxy) (raw_proxy : string) :
  (length (Str.split Str.colon raw_proxy) ≠ 3 →
     raw_proxy_to_object new_Proxy raw_proxy = Raise ProxyParseException)
  ∧ (length (Str.split Str.colon raw_proxy) = 3 →
     ∃ protocol ip port,
       raw_proxy = protocol +:+ ":" +:+ ip +:+ ":" +:+ port
       ∧ Str.count Str.colon protocol = 0
       ∧ Str.count Str.colon ip = 0
       ∧ Str.count Str.colon port = 0
       ∧ raw_proxy_to_object new_Proxy raw_proxy = new_Proxy ip port (Str.lower protocol)
       ∧ raw_proxy_to_object Proxy_init raw_proxy
         = Ok {| protocol := Str.lower protocol; ip := ip; port := port;
                 anonymity := None |})
  ∧ (raw_proxy_to_object Proxy_init raw_proxy = Raise ProxyParseException
     ↔ length (Str.split Str.colon raw_proxy) ≠ 3).
Proof.
  split; [|split].
  - apply raw_proxy_to_object_wrong_count.
  - intros Hlen.
    destruct (split_three_fields raw_proxy)
      as (protocol & ip & port & Hs & Hraw & H1 & H2 & H3).
    { unfold Str.split in Hlen. rewrite split_from_length in Hlen. lia. }
    exists protocol, ip, port. unfold raw_proxy_to_object. by rewrite Hs.
  - split; [|apply raw_proxy_to_object_wrong_count].
    intros Hraise Hlen.
    destruct (raw_proxy_to_object_three_fields Proxy_init raw_proxy Hlen)
      as (protocol & ip & port & _ & _ & _ & _ & Hrun).
    rewrite Hrun in Hraise. discriminate Hraise.
Qed.

Lemma raw_proxy_to_object_checks_field_count_witness :
  raw_proxy_to_object Proxy_init "bad-string" = Raise ProxyParseException
  ∧ (∃ protocol ip port,
       "SOCKS5:5.6.7.8:1080" = protocol +:+ ":" +:+ ip +:+ ":" +:+ port
       ∧ Str.count Str.colon protocol = 0
       ∧ Str.count Str.colon ip = 0
       ∧ Str.count Str.colon port = 0
       ∧ raw_proxy_to_object Proxy_init "SOCKS5:5.6.7.8:1080"
         = Proxy_init ip port (Str.lower protocol)
       ∧ raw_proxy_to_object Proxy_init "SOCKS5:5.6.7.8:1080"
         = Ok {| protocol := Str.lower protocol; ip := ip; port := port;
                 anonymity := None |})
  ∧ length (Str.split Str.colon "a:b:c:d") ≠ 3.
Proof.
  split; [|split].
  - apply (proj1 (raw_proxy_to_object_checks_field_count Proxy_init "bad-string")).
    vm_compute. lia.
  - apply (proj1 (proj2 (raw_proxy_to_object_checks_field_count Proxy_init
                           "SOCKS5:5.6.7.8:1080"))).
    reflexivity.
  - apply (proj1 (proj2 (proj2 (raw_proxy_to_object_checks_field_count Proxy_init
                                  "a:b:c:d")))).
    reflexivity.
Defined.

(** C7 (as stated) fails: a string with three fields and a port that is
    not numeric is malformed in the spec's sense, and [raw_proxy_to_object]
    does not raise [ProxyParseException] on it, whether the constructor
    stores the port or refuses it; and the protocol of the candidate is the
    lowercased field, not the field. *)
Lemma raw_proxy_to_object_accepts_bad_port :
  spec_malformed "http:1.2.3.4:abc" = true
  ∧ raw_proxy_to_object Proxy_init "http:1.2.3.4:abc"
    = Ok {| protocol := "http"; ip := "1.2.3.4"; port := "abc"; anonymity := None |}
  ∧ raw_proxy_to_object Proxy_init "http:1.2.3.4:abc" ≠ Raise ProxyParseException
  ∧ raw_proxy_to_object Proxy_init_validating "http:1.2.3.4:abc"
    ≠ Raise ProxyParseException
  ∧ raw_proxy_to_object Proxy_init "HTTP:1.2.3.4:80"
    = Ok {| protocol := "http"; ip := "1.2.3.4"; port := "80"; anonymity := None |}.
Proof. repeat split; done. Qed.

(** A request that raises inside the session leaves [_get_raw_proxies] as
    [ProxyGatherException], whatever it was. *)
Example raw_proxies_https_raises :
  _get_raw_proxies Protocols_values (Sample.download Sample.session_https_raises) []
  = (session_get_called default_url <$> ["http"; "https"], Raise ProxyGatherException).
Proof. reflexivity. Qed.

(** The raw candidates of the spec's scenario (section 8). *)
Example scenario_candidates :
  raw_proxy_to_object Proxy_init <$> ["http:1.2.3.4:8080"; "socks5:5.6.7.8:1080"; "bad-string"]
  = [Ok Sample.proxy_a; Ok Sample.proxy_b; Raise ProxyParseException].
Proof. reflexivity. Qed.

(** ** fetcher.py: the aggregation step *)

(** Every provider is called, whatever the calls produce. *)
Lemma executor_map_run (providers : list IProxyProvider) (w : World) :
  executor_map providers w
  = (w ++ (gather_called ∘ provider_name <$> providers),
     Ok (gather_outcome <$> providers)).
Proof.
  revert w. induction providers as [|provider providers IH]; intros w.
  - simpl. by rewrite app_nil_r.
  - cbn [executor_map]. unfold gather. rewrite bind_emit. unfold lift, bind.
    rewrite IH. unfold ret. rewrite fmap_cons. simpl. by rewrite <- app_assoc.
Qed.

Lemma contribution_ok (provider : IProxyProvider) (proxies : list Proxy) :
  gather_outcome provider = Ok proxies → contribution provider = proxies.
Proof. intros H. unfold contribution. by rewrite H. Qed.

Lemma chain_all_return (providers : list IProxyProvider) :
  Forall returns providers →
  chain_from_iterable (gather_outcome <$> providers) = Ok (providers ≫= contribution).
Proof.
  induction 1 as [|provider providers [proxies Hp] _ IH]; [done|].
  rewrite fmap_cons, bind_cons. cbn [chain_from_iterable].
  by rewrite (contribution_ok provider proxies Hp), Hp, IH.
Qed.

Lemma chain_first_failure (pre : list IProxyProvider) (provider : IProxyProvider)
    (post : list IProxyProvider) (e : exn) :
  Forall returns pre →
  gather_outcome provider = Raise e →
  chain_from_iterable (gather_outcome <$> pre ++ provider :: post) = Raise e.
Proof.
  intros Hpre Hp. induction Hpre as [|p pre [proxies Hq] _ IH].
  - cbn. by rewrite Hp.
  - rewrite <- app_comm_cons, fmap_cons. cbn [chain_from_iterable].
    by rewrite Hq, IH.
Qed.

Lemma chain_raise_inv (providers : list IProxyProvider) (e : exn) :
  chain_from_iterable (gather_outcome <$> providers) = Raise e →
  ∃ provider, provider ∈ providers ∧ gather_outcome provider = Raise e.
Proof.
  induction providers as [|p providers IH]; [done|].
  rewrite fmap_cons. cbn [chain_from_iterable].
  destruct (gather_outcome p) as [proxies|e'] eqn:Hp.
  - destruct (chain_from_iterable (gather_outcome <$> providers)) as [l|e''] eqn:Hc; [done|].
    intros [= ->]. destruct IH as (q & Hq & Hr); [done|].
    exists q. split; [by apply elem_of_cons; right|done].
  - intros [= ->]. exists p. split; [by apply elem_of_cons; left|done].
Qed.

Lemma chain_ok_inv (providers : list IProxyProvider) (proxies : list Proxy) :
  chain_from_iterable (gather_outcome <$> providers) = Ok proxies →
  Forall returns providers ∧ proxies = providers ≫= contribution.
Proof.
  revert proxies. induction providers as [|p providers IH]; intros proxies.
  - intros [= <-]. by split.
  - rewrite fmap_cons. cbn [chain_from_iterable].
    destruct (gather_outcome p) as [l|e] eqn:Hp; [|done].
    destruct (chain_from_iterable (gather_outcome <$> providers)) as [l'|e] eqn:Hc; [|done].
    intros [= <-]. destruct (IH l' eq_refl) as [Hall ->].
    split; [constructor; [by exists l|done]|].
    by rewrite bind_cons, (contribution_ok p l Hp).
Qed.

Lemma returns_dec (provider : IProxyProvider) : returns provider ∨ ¬ returns provider.
Proof.
  unfold returns. destruct (gather_outcome provider) as [l|e]; [left; by exists l|].
  right. by intros [l [=]].
Qed.

(** What the aggregation step does, in one equation. *)
Lemma _get_all_proxies_from_providers_run (self : ProxyFetcher) (w : World) :
  _get_all_proxies_from_providers self w
  = (w ++ (gather_called ∘ provider_name <$> _proxy_providers self),
     match chain_from_iterable (gather_outcome <$> _proxy_providers self) with
     | Ok proxies => Ok (list_of_set (set_of proxies))
     | Raise e => Raise e
     end).
Proof.
  unfold _get_all_proxies_from_providers.
  rewrite (bind_ok _ _ _ _ _ (executor_map_run _ w)).
  unfold mbind, M_bind, bind, lift, ret.
  by destruct (chain_from_iterable _).
Qed.

(** *** The set *)

Lemma set_add_lookup (s : gmap (string * string * string) Proxy) (p : Proxy)
    (k : string * string * string) :
  set_add s p !! k
  = match s !! k with
    | Some q => Some q
    | None => if decide (proxy_key p = k) then Some p else None
    end.
Proof.
  unfold set_add. destruct (s !! proxy_key p) as [q|] eqn:Hq.
  - destruct (s !! k) as [q'|] eqn:Hk; [done|].
    case_decide; [congruence|done].
  - rewrite lookup_insert. case_decide as Hd.
    + subst k. by rewrite Hq.
    + by destruct (s !! k).
Qed.

Lemma set_add_keyed (s : gmap (string * string * string) Proxy) (p : Proxy) :
  keyed s → keyed (set_add s p).
Proof.
  intros Hs k q. rewrite set_add_lookup.
  destruct (s !! k) as [q'|] eqn:Hk.
  - intros [= <-]. by apply Hs.
  - case_decide; [by intros [= <-]|done].
Qed.

Lemma foldl_set_add_keyed (l : list Proxy) (s : gmap (string * string * string) Proxy) :
  keyed s → keyed (foldl set_add s l).
Proof.
  revert s. induction l as [|p l IH]; intros s Hs; [done|].
  simpl. apply IH. by apply set_add_keyed.
Qed.

Lemma set_of_keyed (l : list Proxy) : keyed (set_of l).
Proof. apply foldl_set_add_keyed. intros k p. by rewrite lookup_empty. Qed.

(** An element already in the set stays, under every later [add]. *)
Lemma foldl_set_add_keeps (l : list Proxy) (s : gmap (string * string * string) Proxy)
    (k : string * string * string) (q : Proxy) :
  s !! k = Some q → foldl set_add s l !! k = Some q.
Proof.
  revert s. induction l as [|p l IH]; intros s Hs; [done|].
  simpl. apply IH. by rewrite set_add_lookup, Hs.
Qed.

(** The set holds nothing but elements of the list. *)
Lemma foldl_set_add_from (l : list Proxy) (s : gmap (string * string * string) Proxy)
    (k : string * string * string) (q : Proxy) :
  foldl set_add s l !! k = Some q → s !! k = Some q ∨ q ∈ l.
Proof.
  revert s. induction l as [|p l IH]; intros s; [by left|].
  simpl. intros Hq. destruct (IH _ Hq) as [Hs|Hl].
  - rewrite set_add_lookup in Hs. destruct (s !! k) as [q'|]; [by left|].
    case_decide; [|done]. injection Hs as <-. right. by apply elem_of_cons; left.
  - right. by apply elem_of_cons; right.
Qed.

(** The set holds, for every element of the list, an element equal to it. *)
Lemma foldl_set_add_covers (l : list Proxy) (s : gmap (string * string * string) Proxy)
    (p : Proxy) :
  p ∈ l → is_Some (foldl set_add s l !! proxy_key p).
Proof.
  revert s. induction l as [|p' l IH]; intros s Hp; [by apply elem_of_nil in Hp|].
  apply elem_of_cons in Hp as [->|Hp]; [|by apply IH].
  simpl. destruct (set_add s p' !! proxy_key p') as [q|] eqn:Hq.
  - exists q. by apply foldl_set_add_keeps.
  - rewrite set_add_lookup in Hq. destruct (s !! proxy_key p'); [done|].
    by case_decide.
Qed.

(** Of the elements equal to one another the set holds the one that comes
    first in the list. *)
Lemma set_of_first (pre : list Proxy) (p : Proxy) (post : list Proxy) :
  Forall (λ q, proxy_key q ≠ proxy_key p) pre →
  set_of (pre ++ p :: post) !! proxy_key p = Some p.
Proof.
  intros Hpre. unfold set_of. rewrite foldl_app. simpl.
  apply foldl_set_add_keeps. rewrite set_add_lookup.
  destruct (foldl set_add ∅ pre !! proxy_key p) as [q|] eqn:Hq.
  - pose proof (set_of_keyed pre _ _ Hq) as Hkey.
    apply foldl_set_add_from in Hq as [Hq|Hq]; [by rewrite lookup_empty in Hq|].
    rewrite Forall_forall in Hpre. by destruct (Hpre q Hq).
  - by case_decide.
Qed.

Lemma elem_of_list_of_set (s : gmap (string * string * string) Proxy) (p : Proxy) :
  p ∈ list_of_set s ↔ ∃ k, s !! k = Some p.
Proof.
  unfold list_of_set. rewrite list_elem_of_fmap. split.
  - intros ([k q] & -> & Hkq). exists k. by apply elem_of_map_to_list.
  - intros [k Hk]. exists (k, p). split; [done|]. by apply elem_of_map_to_list.
Qed.

Lemma list_of_set_NoDup (s : gmap (string * string * string) Proxy) :
  keyed s → NoDup (proxy_key <$> list_of_set s).
Proof.
  intros Hs. unfold list_of_set. rewrite <- list_fmap_compose.
  rewrite (Forall_fmap_ext_1 (proxy_key ∘ snd) fst (map_to_list s)).
  - apply NoDup_fst_map_to_list.
  - apply Forall_forall. intros [k p] Hkp. simpl. apply Hs.
    by apply elem_of_map_to_list.
Qed.

(** C6: whatever the providers produce, the list the aggregation step
    returns holds no two entries with the same (protocol, address, port);
    every entry comes from a provider, and every candidate of every provider
    has an entry equal to it. *)
Theorem aggregation_has_no_duplicates (self : ProxyFetcher) (w w' : World)
    (proxies : list Proxy) :
  _get_all_proxies_from_providers self w = (w', Ok proxies) →
  NoDup (proxy_key <$> proxies)
  ∧ (∀ p, p ∈ proxies →
       ∃ provider l, provider ∈ _proxy_providers self
                     ∧ gather_outcome provider = Ok l ∧ p ∈ l)
  ∧ (∀ provider l p,
       provider ∈ _proxy_providers self → gather_outcome provider = Ok l → p ∈ l →
       ∃ q, q ∈ proxies ∧ proxy_key q = proxy_key p).
Proof.
  rewrite _get_all_proxies_from_providers_run.
  destruct (chain_from_iterable _) as [l0|e] eqn:Hchain; [|done].
  intros [= _ <-]. apply chain_ok_inv in Hchain as [Hall ->].
  split; [|split].
  - apply list_of_set_NoDup, set_of_keyed.
  - intros p Hp. apply elem_of_list_of_set in Hp as [k Hk].
    apply foldl_set_add_from in Hk as [Hk|Hk]; [by rewrite lookup_empty in Hk|].
    apply list_elem_of_bind in Hk as (provider & Hp & Hprov).
    rewrite Forall_forall in Hall. destruct (Hall provider Hprov) as [l Hl].
    exists provider, l. by rewrite (contribution_ok provider l Hl) in Hp.
  - intros provider l p Hprov Hl Hp.
    assert (p ∈ _proxy_providers self ≫= contribution) as Hin.
    { apply list_elem_of_bind. exists provider.
      by rewrite (contribution_ok provider l Hl). }
    destruct (foldl_set_add_covers _ ∅ p Hin) as [q Hq].
    exists q. split.
    + apply elem_of_list_of_set. by exists (proxy_key p).
    + by apply (set_of_keyed _ _ _ Hq).
Qed.

Lemma aggregation_has_no_duplicates_witness :
  NoDup (proxy_key <$> [Sample.proxy_b; Sample.proxy_a])
  ∧ (∀ p, p ∈ [Sample.proxy_b; Sample.proxy_a] →
       ∃ provider l,
         provider ∈ _proxy_providers
                      (Sample.fetcher [Sample.provider_up; Sample.provider_twin])
         ∧ gather_outcome provider = Ok l ∧ p ∈ l)
  ∧ (∀ provider l p,
       provider ∈ _proxy_providers
                    (Sample.fetcher [Sample.provider_up; Sample.provider_twin]) →
       gather_outcome provider = Ok l → p ∈ l →
       ∃ q, q ∈ [Sample.proxy_b; Sample.proxy_a] ∧ proxy_key q = proxy_key p).
Proof.
  apply (aggregation_has_no_duplicates
           (Sample.fetcher [Sample.provider_up; Sample.provider_twin])
           [] [gather_called "up"; gather_called "twin"]).
  vm_compute. reflexivity.
Defined.

(** C1 (amended): the aggregation step calls the [gather()] of every
    provider.  When every call returns, it returns the deduplicated merge of
    what the providers found.  When a call raises, the step raises too, with
    the exception of the first provider, in provider order, whose call
    raised, and returns nothing of what the other providers found.  It
    returns a list exactly when every call returns. *)
Theorem aggregation_raises_first_failure (self : ProxyFetcher) (w : World) :
  (_get_all_proxies_from_providers self w).1
  = w ++ (gather_called ∘ provider_name <$> _proxy_providers self)
  ∧ (Forall returns (_proxy_providers self) →
       (_get_all_proxies_from_providers self w).2
       = Ok (spec_aggregate (_proxy_providers self)))
  ∧ (∀ pre provider post e,
       _proxy_providers self = pre ++ provider :: post →
       Forall returns pre →
       gather_outcome provider = Raise e →
       (_get_all_proxies_from_providers self w).2 = Raise e)
  ∧ ((∃ proxies, (_get_all_proxies_from_providers self w).2 = Ok proxies)
     ↔ Forall returns (_proxy_providers self)).
Proof.
  rewrite _get_all_proxies_from_providers_run. cbn [fst snd].
  split; [done|]. split; [|split].
  - intros Hall. by rewrite (chain_all_return _ Hall).
  - intros pre provider post e -> Hpre Hp.
    by rewrite (chain_first_failure pre provider post e Hpre Hp).
  - split.
    + intros [proxies Hrun].
      destruct (chain_from_iterable _) as [l|e] eqn:Hchain; [|done].
      by apply chain_ok_inv in Hchain as [Hall _].
    + intros Hall. rewrite (chain_all_return _ Hall). by eexists.
Qed.

Lemma sample_up_returns : Forall returns [Sample.provider_up; Sample.provider_twin].
Proof. repeat constructor; by eexists. Qed.

Lemma aggregation_raises_first_failure_witness :
  (_get_all_proxies_from_providers
     (Sample.fetcher [Sample.provider_up; Sample.provider_twin]) []).2
  = Ok (spec_aggregate [Sample.provider_up; Sample.provider_twin])
  ∧ (_get_all_proxies_from_providers
       (Sample.fetcher [Sample.provider_up; Sample.provider_down; Sample.provider_twin])
       []).2
    = Raise ProxyGatherException
  ∧ ∃ proxies,
      (_get_all_proxies_from_providers
         (Sample.fetcher [Sample.provider_up; Sample.provider_twin]) []).2
      = Ok proxies.
Proof.
  split; [|split].
  - apply (proj1 (proj2 (aggregation_raises_first_failure
                           (Sample.fetcher [Sample.provider_up; Sample.provider_twin])
                           []))).
    exact sample_up_returns.
  - apply (proj1 (proj2 (proj2 (aggregation_raises_first_failure
             (Sample.fetcher
                [Sample.provider_up; Sample.provider_down; Sample.provider_twin])
             [])))
             [Sample.provider_up] Sample.provider_down [Sample.provider_twin]
             ProxyGatherException).
    + reflexivity.
    + repeat constructor. by eexists.
    + reflexivity.
  - apply (proj2 (proj2 (proj2 (proj2 (aggregation_raises_first_failure
             (Sample.fetcher [Sample.provider_up; Sample.provider_twin]) []))))).
    exact sample_up_returns.
Defined.

(** C1 (as stated) fails: with one provider that found two candidates and
    one whose [gather()] raises [ProxyGatherException], the spec's
    aggregation gives the two candidates, and the aggregation step of the
    code raises [ProxyGatherException], after calling both providers: it
    returns no list at all. *)
Lemma aggregation_aborts_on_provider_failure :
  gather_outcome Sample.provider_up = Ok [Sample.proxy_a; Sample.proxy_b]
  ∧ gather_outcome Sample.provider_down = Raise ProxyGatherException
  ∧ spec_aggregate [Sample.provider_up; Sample.provider_down]
    ≡ₚ [Sample.proxy_a; Sample.proxy_b]
  ∧ _get_all_proxies_from_providers
      (Sample.fetcher [Sample.provider_up; Sample.provider_down]) []
    = ([gather_called "up"; gather_called "down"], Raise ProxyGatherException)
  ∧ ∀ proxies,
      outcome (_get_all_proxies_from_providers
                 (Sample.fetcher [Sample.provider_up; Sample.provider_down]))
      ≠ Ok proxies.
Proof.
  split; [done|]. split; [done|]. split; [|split; [done|]].
  - vm_compute. apply perm_swap.
  - intros proxies. vm_compute. discriminate.
Qed.

(** ** fetcher.py: the attributes and the construction *)

(** The test of [__setattr__] singles out the [debug] attribute. *)
Lemma attr_name_debug (a : attr) : attr_name a = "debug" ↔ a = attr_debug.
Proof. by destruct a. Qed.

Lemma attr_name_inj (a b : attr) : attr_name a = attr_name b → a = b.
Proof. by destruct a, b. Qed.

Lemma getattr_object_setattr (self : ProxyFetcher) (a : attr) (v : attr_type a) :
  getattr (object_setattr self a v) a = v.
Proof. by destruct a. Qed.

Lemma getattr_object_setattr_other (self : ProxyFetcher) (a b : attr) (v : attr_type a) :
  b ≠ a → getattr (object_setattr self a v) b = getattr self b.
Proof. by destruct a, b. Qed.

Lemma __setattr___run (self : ProxyFetcher) (a : attr) (v : attr_type a) (w : World) :
  __setattr__ self a v w
  = (w ++ match a return attr_type a → list event with
          | attr_debug => λ d, [init_logger_called d]
          | _ => λ _, []
          end v,
     Ok (object_setattr self a v)).
Proof. destruct a; cbn; by rewrite ?app_nil_r. Qed.

(** C9 (amended): writing an attribute stores the value and changes no
    other field.  Writing an attribute other than [debug] has no other
    effect; writing [debug] also calls [init_logger] with the value
    written. *)
Theorem setattr_stores_and_frames (self : ProxyFetcher) (a : attr)
    (v : attr_type a) (w : World) :
  (∃ self',
     (__setattr__ self a v w).2 = Ok self'
     ∧ getattr self' a = v
     ∧ ∀ b, b ≠ a → getattr self' b = getattr self b)
  ∧ (attr_name a ≠ "debug" → (__setattr__ self a v w).1 = w)
  ∧ (∀ d, (__setattr__ self attr_debug d w).1 = w ++ [init_logger_called d]).
Proof.
  rewrite __setattr___run. cbn [fst snd]. split; [|split].
  - exists (object_setattr self a v). split; [done|]. split.
    + apply getattr_object_setattr.
    + intros b Hb. by apply getattr_object_setattr_other.
  - intros Ha. destruct a; try by rewrite app_nil_r. done.
  - intros d. by rewrite __setattr___run.
Qed.

Lemma setattr_stores_and_frames_witness :
  (∃ self',
     (__setattr__ (Sample.fetcher []) attr_loop (Some (EventLoop 7)) []).2 = Ok self'
     ∧ getattr self' attr_loop = Some (EventLoop 7)
     ∧ getattr self' attr_debug = getattr (Sample.fetcher []) attr_debug)
  ∧ (__setattr__ (Sample.fetcher []) attr_loop (Some (EventLoop 7)) []).1 = [].
Proof.
  split.
  - destruct (proj1 (setattr_stores_and_frames (Sample.fetcher []) attr_loop
                       (Some (EventLoop 7)) [])) as (self' & Hrun & Hget & Hframe).
    exists self'. split; [exact Hrun|]. split; [exact Hget|].
    apply Hframe. discriminate.
  - apply (proj1 (proj2 (setattr_stores_and_frames (Sample.fetcher []) attr_loop
                           (Some (EventLoop 7)) []))).
    discriminate.
Defined.

(** C9 (as stated) fails: assigning to [debug] calls [init_logger]. *)
Lemma debug_write_reinitializes_logging :
  __setattr__ (Sample.fetcher []) attr_debug true []
  = ([init_logger_called true],
     Ok {| _proxy_providers := [];
           _proxy_validator := Some (Sample.validator (EventLoop 0));
           _proxy_filterer := Some Sample.filterer;
           loop := Some (EventLoop 0);
           debug := true |})
  ∧ calls (__setattr__ (Sample.fetcher []) attr_debug true) ≠ [].
Proof. split; done. Qed.

Lemma __init___run (env : Env) (providers : list IProxyProvider)
    (validator : option ProxyValidator.t) (filterer : option ProxyFilterer.t)
    (loop : option AbstractEventLoop) (debug : bool) (w : World) :
  __init__ env providers validator filterer loop debug w
  = if env_has_internet_connection env
    then (w ++ [init_logger_called debug; has_internet_connection_called]
            ++ construction_calls env validator filterer loop,
          Ok (constructed env providers validator filterer loop debug))
    else (w ++ [init_logger_called debug; has_internet_connection_called],
          Raise NoInternetConnection).
Proof.
  destruct env as [online new_loop new_filterer new_validator].
  destruct online, validator as [v|], filterer as [f|], loop as [l|];
    cbv -[app]; by rewrite <- ?app_assoc.
Qed.

(** C5: without connectivity the construction fails with
    [NoInternetConnection] right after the connectivity check; all it has
    called by then is the logger set-up that the assignment of [debug]
    brings, and the check itself.  A construction that succeeds has had its
    check pass, and no construction gathers, filters or validates. *)
Theorem construction_needs_connectivity (env : Env) (providers : list IProxyProvider)
    (validator : option ProxyValidator.t) (filterer : option ProxyFilterer.t)
    (loop : option AbstractEventLoop) (debug : bool) (w : World) :
  (env_has_internet_connection env = false →
     __init__ env providers validator filterer loop debug w
     = (w ++ [init_logger_called debug; has_internet_connection_called],
        Raise NoInternetConnection))
  ∧ (∀ self, (__init__ env providers validator filterer loop debug w).2 = Ok self →
       env_has_internet_connection env = true)
  ∧ (env_has_internet_connection env = true →
       ∃ self, (__init__ env providers validator filterer loop debug w).2 = Ok self)
  ∧ (∃ called,
       (__init__ env providers validator filterer loop debug w).1 = w ++ called
       ∧ Forall (λ e, pipeline_work e = false) called).
Proof.
  rewrite __init___run. split; [|split; [|split]].
  - by intros ->.
  - intros self. by destruct (env_has_internet_connection env).
  - intros ->. by eexists.
  - destruct (env_has_internet_connection env); cbn [fst].
    + eexists. split; [done|].
      repeat constructor.
      unfold construction_calls.
      destruct filterer, validator, loop; repeat constructor.
    + eexists. split; [done|]. by repeat constructor.
Qed.

Lemma construction_needs_connectivity_witness :
  __init__ (Sample.env false) [Sample.provider_up] None None None true []
  = ([init_logger_called true; has_internet_connection_called],
     Raise NoInternetConnection)
  ∧ env_has_internet_connection (Sample.env true) = true
  ∧ ∃ self,
      (__init__ (Sample.env true) [Sample.provider_up] None None None true []).2
      = Ok self.
Proof.
  split; [|split].
  - apply (proj1 (construction_needs_connectivity (Sample.env false)
                    [Sample.provider_up] None None None true [])).
    reflexivity.
  - apply (proj1 (proj2 (construction_needs_connectivity (Sample.env true)
                           [Sample.provider_up] None None None true []))
             (constructed (Sample.env true) [Sample.provider_up] None None None true)).
    reflexivity.
  - apply (proj1 (proj2 (proj2 (construction_needs_connectivity (Sample.env true)
                                  [Sample.provider_up] None None None true [])))).
    reflexivity.
Defined.

(** ** fetcher.py: the pipeline *)

Lemma bind_ret_run {A B} (m : M A) (f : A → B) (w : World) :
  (m ≫= λ a, ret (f a)) w
  = match m w with
    | (w', Ok a) => (w', Ok (f a))
    | (w', Raise e) => (w', Raise e)
    end.
Proof. unfold mbind, M_bind, bind, ret. by destruct (m w) as [w' [a|e]]. Qed.

(** The pipeline, when the aggregation step raises. *)
Lemma _gather_aggregation_raises (self : ProxyFetcher) (protocols : list Protocols)
    (anonymities : list Anonymities) (limit : Z) (w : World) (e : exn) :
  (_get_all_proxies_from_providers self w).2 = Raise e →
  _gather self protocols anonymities limit w
  = ((_get_all_proxies_from_providers self w).1, Raise e).
Proof.
  intros Hagg. unfold _gather.
  destruct (_get_all_proxies_from_providers self w) as [w' r] eqn:Hrun.
  simpl in Hagg. subst r. by rewrite (bind_raise _ _ _ _ _ Hrun).
Qed.

(** The pipeline, when the aggregation step returns and the fetcher has its
    filterer and its validator. *)
Lemma _gather_aggregation_returns (self : ProxyFetcher) (protocols : list Protocols)
    (anonymities : list Anonymities) (limit : Z) (w : World)
    (proxies : list Proxy) (filterer : ProxyFilterer.t) (validator : ProxyValidator.t) :
  (_get_all_proxies_from_providers self w).2 = Ok proxies →
  _proxy_filterer self = Some filterer →
  _proxy_validator self = Some validator →
  _gather self protocols anonymities limit w
  = ((_get_all_proxies_from_providers self w).1
       ++ [filter_called; filter_valid_proxies_called limit],
     match ProxyValidator.filter_valid_proxies validator
             (ProxyFilterer.filter filterer proxies protocols anonymities) limit with
     | [] => Raise NoProxiesFound
     | valid_proxies => Ok valid_proxies
     end).
Proof.
  intros Hagg Hf Hv. unfold _gather.
  destruct (_get_all_proxies_from_providers self w) as [w' r] eqn:Hrun.
  simpl in Hagg. subst r. rewrite (bind_ok _ _ _ _ _ Hrun), Hf, Hv.
  cbn [method_of fst]. rewrite bind_ret, bind_emit, bind_ret, bind_emit.
  rewrite <- app_assoc. cbn [app].
  by destruct (ProxyValidator.filter_valid_proxies _ _ _).
Qed.

Lemma get_run (self : ProxyFetcher) (protocols : list Protocols)
    (anonymities : list Anonymities) (limit : Z) (w : World) :
  get self protocols anonymities limit w
  = match _gather self protocols anonymities limit w with
    | (w', Ok proxies) => (w', Ok (PyList proxies))
    | (w', Raise e) => (w', Raise e)
    end.
Proof. apply bind_ret_run. Qed.

Lemma get_one_run (self : ProxyFetcher) (protocols : list Protocols)
    (anonymities : list Anonymities) (w : World) :
  get_one self protocols anonymities w
  = match _gather self protocols anonymities 1 w with
    | (w', Ok proxies) => (w', Ok (PyList proxies))
    | (w', Raise e) => (w', Raise e)
    end.
Proof. apply bind_ret_run. Qed.

(** What [_gather] gives when the [gather()] of a provider raises: the
    exception of the first provider, in provider order, whose call raised. *)
Lemma _gather_first_failure (self : ProxyFetcher) (protocols : list Protocols)
    (anonymities : list Anonymities) (limit : Z) (w : World)
    (pre : list IProxyProvider) (provider : IProxyProvider)
    (post : list IProxyProvider) (e : exn) :
  _proxy_providers self = pre ++ provider :: post →
  Forall returns pre →
  gather_outcome provider = Raise e →
  (_gather self protocols anonymities limit w).2 = Raise e.
Proof.
  intros Hproviders Hpre Hp.
  assert ((_get_all_proxies_from_providers self w).2 = Raise e) as Hagg.
  { rewrite _get_all_proxies_from_providers_run, Hproviders. cbn [snd].
    by rewrite (chain_first_failure pre provider post e Hpre Hp). }
  by rewrite (_gather_aggregation_raises _ _ _ _ _ _ Hagg).
Qed.

(** What [_gather] gives a fetcher that has its filterer and its validator
    when every provider returns: a list that is not empty, or
    [NoProxiesFound]. *)
Lemma _gather_all_return (self : ProxyFetcher) (protocols : list Protocols)
    (anonymities : list Anonymities) (limit : Z) (w : World) :
  is_Some (_proxy_filterer self) →
  is_Some (_proxy_validator self) →
  Forall returns (_proxy_providers self) →
  found_or_not
    (match (_gather self protocols anonymities limit w).2 with
     | Ok proxies => Ok (PyList proxies)
     | Raise e => Raise e
     end).
Proof.
  intros [filterer Hf] [validator Hv] Hall.
  assert (∃ proxies, (_get_all_proxies_from_providers self w).2 = Ok proxies)
    as [proxies Hagg].
  { rewrite _get_all_proxies_from_providers_run. cbn [snd].
    rewrite (chain_all_return _ Hall). by eexists. }
  rewrite (_gather_aggregation_returns _ _ _ _ _ _ _ _ Hagg Hf Hv). cbn [snd].
  destruct (ProxyValidator.filter_valid_proxies _ _ _) as [|p valid].
  - by right.
  - left. by eexists.
Qed.

(** What [_gather] gives a fetcher that has its filterer and its validator:
    a list that is not empty, [NoProxiesFound], or the exception of a
    provider. *)
Lemma _gather_outcomes (self : ProxyFetcher) (protocols : list Protocols)
    (anonymities : list Anonymities) (limit : Z) (w : World) :
  is_Some (_proxy_filterer self) →
  is_Some (_proxy_validator self) →
  caller_sees (_proxy_providers self)
    (match (_gather self protocols anonymities limit w).2 with
     | Ok proxies => Ok (PyList proxies)
     | Raise e => Raise e
     end).
Proof.
  intros Hf Hv.
  destruct (first_failure returns (_proxy_providers self) returns_dec)
    as [Hall|(pre & provider & post & Hproviders & Hpre & Hfail)].
  - left. by apply _gather_all_return.
  - right. destruct (gather_outcome provider) as [l|e] eqn:Hp.
    { destruct Hfail. by exists l. }
    rewrite (_gather_first_failure _ _ _ _ _ _ _ _ _ Hproviders Hpre Hp).
    exists provider, e. split; [|done].
    rewrite Hproviders. apply elem_of_app. right. by apply elem_of_cons; left.
Qed.

(** The result of [get] and of [get_one], from the result of [_gather]. *)
Lemma get_result (self : ProxyFetcher) (protocols : list Protocols)
    (anonymities : list Anonymities) (limit : Z) (w : World) :
  (get self protocols anonymities limit w).2
  = match (_gather self protocols anonymities limit w).2 with
    | Ok proxies => Ok (PyList proxies)
    | Raise e => Raise e
    end.
Proof.
  rewrite get_run.
  by destruct (_gather self protocols anonymities limit w) as [w' [l|e]].
Qed.

Lemma get_one_result (self : ProxyFetcher) (protocols : list Protocols)
    (anonymities : list Anonymities) (w : World) :
  (get_one self protocols anonymities w).2
  = match (_gather self protocols anonymities 1 w).2 with
    | Ok proxies => Ok (PyList proxies)
    | Raise e => Raise e
    end.
Proof.
  rewrite get_one_run.
  by destruct (_gather self protocols anonymities 1 w) as [w' [l|e]].
Qed.

(** C2 (amended): a construction fails with [NoInternetConnection] when
    there is no connectivity, and gives a fetcher otherwise.  On that
    fetcher, when the [gather()] of every provider returns, [get] and
    [get_one] give the caller a [Proxy] or a list of proxies that is not
    empty, or raise [NoProxiesFound].  When the [gather()] of a provider
    raises, [get] and [get_one] raise that exception, as it is: the one of
    the first provider, in provider order, whose call raised.  So the caller
    gets a [Proxy] or a list of proxies, [NoProxiesFound], or the exception
    of a provider. *)
Theorem caller_sees_provider_exceptions (env : Env) (providers : list IProxyProvider)
    (validator : option ProxyValidator.t) (filterer : option ProxyFilterer.t)
    (loop : option AbstractEventLoop) (debug : bool) (w : World) :
  (env_has_internet_connection env = false →
     (__init__ env providers validator filterer loop debug w).2
     = Raise NoInternetConnection)
  ∧ (env_has_internet_connection env = true →
     ∃ self,
       (__init__ env providers validator filterer loop debug w).2 = Ok self
       ∧ _proxy_providers self = providers
       ∧ ∀ protocols anonymities limit w',
           (Forall returns providers →
              found_or_not (get self protocols anonymities limit w').2
              ∧ found_or_not (get_one self protocols anonymities w').2)
           ∧ (∀ pre provider post e,
                providers = pre ++ provider :: post →
                Forall returns pre →
                gather_outcome provider = Raise e →
                (get self protocols anonymities limit w').2 = Raise e
                ∧ (get_one self protocols anonymities w').2 = Raise e)
           ∧ caller_sees providers (get self protocols anonymities limit w').2
           ∧ caller_sees providers (get_one self protocols anonymities w').2).
Proof.
  rewrite __init___run. split.
  - by intros ->.
  - intros ->. exists (constructed env providers validator filterer loop debug).
    split; [done|]. split; [done|].
    intros protocols anonymities limit w'.
    rewrite get_result, get_one_result.
    assert (is_Some (_proxy_filterer
                       (constructed env providers validator filterer loop debug)))
      as Hf by (by eexists).
    assert (is_Some (_proxy_validator
                       (constructed env providers validator filterer loop debug)))
      as Hv by (by eexists).
    split; [|split; [|split]].
    + intros Hall. split.
      * exact (_gather_all_return
                 (constructed env providers validator filterer loop debug)
                 protocols anonymities limit w' Hf Hv Hall).
      * exact (_gather_all_return
                 (constructed env providers validator filterer loop debug)
                 protocols anonymities 1 w' Hf Hv Hall).
    + intros pre provider post e Hproviders Hpre Hp.
      by rewrite !(_gather_first_failure
                     (constructed env providers validator filterer loop debug)
                     _ _ _ _ pre provider post e).
    + exact (_gather_outcomes
               (constructed env providers validator filterer loop debug)
               protocols anonymities limit w' Hf Hv).
    + exact (_gather_outcomes
               (constructed env providers validator filterer loop debug)
               protocols anonymities 1 w' Hf Hv).
Qed.

Lemma caller_sees_provider_exceptions_witness :
  (__init__ (Sample.env false) [Sample.provider_up] None None None false []).2
  = Raise NoInternetConnection
  ∧ (∃ self,
       (__init__ (Sample.env true) [Sample.provider_up; Sample.provider_down]
          None None None false []).2 = Ok self
       ∧ (get self [] [] 0 []).2 = Raise ProxyGatherException
       ∧ (get_one self [] [] []).2 = Raise ProxyGatherException)
  ∧ (∃ self,
       (__init__ (Sample.env true) [Sample.provider_up] None None None false []).2
       = Ok self
       ∧ found_or_not (get self [] [] 0 []).2
       ∧ found_or_not (get_one self [] [] []).2).
Proof.
  split; [|split].
  - apply (proj1 (caller_sees_provider_exceptions (Sample.env false)
                    [Sample.provider_up] None None None false [])).
    reflexivity.
  - destruct (proj2 (caller_sees_provider_exceptions (Sample.env true)
                       [Sample.provider_up; Sample.provider_down] None None None false [])
                eq_refl)
      as (self & Hrun & _ & Hcalls).
    exists self. split; [exact Hrun|].
    destruct (Hcalls [] [] 0%Z []) as (_ & Hraise & _).
    apply (Hraise [Sample.provider_up] Sample.provider_down [] ProxyGatherException).
    + reflexivity.
    + repeat constructor. by eexists.
    + reflexivity.
  - destruct (proj2 (caller_sees_provider_exceptions (Sample.env true)
                       [Sample.provider_up] None None None false [])
                eq_refl)
      as (self & Hrun & _ & Hcalls).
    exists self. split; [exact Hrun|].
    destruct (Hcalls [] [] 0%Z []) as (Hfound & _).
    apply Hfound. repeat constructor. by eexists.
Defined.

(** C2 (as stated) fails: with a provider whose [gather()] raises
    [ProxyGatherException], a fetcher that was constructed with connectivity
    raises [ProxyGatherException] from [get] and from [get_one]: the caller
    gets neither a list nor one of the two errors. *)
Lemma provider_exception_reaches_caller :
  outcome (__init__ (Sample.env true) [Sample.provider_up; Sample.provider_down]
             (Some (Sample.validator (EventLoop 0))) (Some Sample.filterer)
             (Some (EventLoop 0)) false)
  = Ok (Sample.fetcher [Sample.provider_up; Sample.provider_down])
  ∧ outcome (get (Sample.fetcher [Sample.provider_up; Sample.provider_down]) [] [] 0)
    = Raise ProxyGatherException
  ∧ outcome (get_one (Sample.fetcher [Sample.provider_up; Sample.provider_down]) [] [])
    = Raise ProxyGatherException
  ∧ ProxyGatherException ≠ NoProxiesFound
  ∧ ProxyGatherException ≠ NoInternetConnection.
Proof. repeat split; done. Qed.

(** C4: when the validation step gives an empty list, [get] and [get_one]
    raise [NoProxiesFound]; neither ever returns an empty list. *)
Theorem empty_validation_raises_NoProxiesFound (self : ProxyFetcher)
    (protocols : list Protocols) (anonymities : list Anonymities) (limit : Z)
    (w : World) :
  (∀ proxies filterer validator,
     (_get_all_proxies_from_providers self w).2 = Ok proxies →
     _proxy_filterer self = Some filterer →
     _proxy_validator self = Some validator →
     (ProxyValidator.filter_valid_proxies validator
        (ProxyFilterer.filter filterer proxies protocols anonymities) limit = [] →
      (get self protocols anonymities limit w).2 = Raise NoProxiesFound)
     ∧ (ProxyValidator.filter_valid_proxies validator
          (ProxyFilterer.filter filterer proxies protocols anonymities) 1 = [] →
        (get_one self protocols anonymities w).2 = Raise NoProxiesFound))
  ∧ (get self protocols anonymities limit w).2 ≠ Ok (PyList [])
  ∧ (get_one self protocols anonymities w).2 ≠ Ok (PyList []).
Proof.
  assert (∀ n, (_gather self protocols anonymities n w).2 ≠ Ok []) as Hne.
  { intros n. unfold _gather.
    destruct (_get_all_proxies_from_providers self w) as [w1 [proxies|e]] eqn:Hrun.
    - rewrite (bind_ok _ _ _ _ _ Hrun).
      destruct (_proxy_filterer self) as [f|]; [|done].
      destruct (_proxy_validator self) as [v|]; [|done].
      cbn [method_of]. rewrite bind_ret, bind_emit, bind_ret, bind_emit.
      by destruct (ProxyValidator.filter_valid_proxies _ _ _).
    - by rewrite (bind_raise _ _ _ _ _ Hrun). }
  rewrite get_run, get_one_run. split; [|split].
  - intros proxies filterer validator Hagg Hf Hv.
    rewrite !(_gather_aggregation_returns _ _ _ _ _ _ _ _ Hagg Hf Hv).
    split; by intros ->.
  - specialize (Hne limit).
    destruct (_gather self protocols anonymities limit w) as [w' [l|e]]; [|done].
    intros [= ->]. by apply Hne.
  - specialize (Hne 1%Z).
    destruct (_gather self protocols anonymities 1 w) as [w' [l|e]]; [|done].
    intros [= ->]. by apply Hne.
Qed.

Lemma empty_validation_raises_NoProxiesFound_witness :
  (get (Sample.fetcher_dead [Sample.provider_up]) [HTTP] [] 3 []).2 = Raise NoProxiesFound
  ∧ (get_one (Sample.fetcher_dead [Sample.provider_up]) [HTTP] [] []).2
    = Raise NoProxiesFound.
Proof.
  destruct (proj1 (empty_validation_raises_NoProxiesFound
                     (Sample.fetcher_dead [Sample.provider_up]) [HTTP] [] 3 [])
              [Sample.proxy_b; Sample.proxy_a] Sample.filterer
              (Sample.validator_dead (EventLoop 0)))
    as [Hget Hone].
  - vm_compute. reflexivity.
  - reflexivity.
  - reflexivity.
  - split; [apply Hget|apply Hone]; reflexivity.
Defined.

(** C8: [get_one] with some protocols and anonymities is [get] with the same
    protocols and anonymities and a limit of 1: the same calls, and the same
    value returned or the same exception raised. *)
Theorem get_one_is_get_with_limit_1 (self : ProxyFetcher)
    (protocols : list Protocols) (anonymities : list Anonymities) (w : World) :
  get_one self protocols anonymities w = get self protocols anonymities 1 w.
Proof. by rewrite get_one_run, get_run. Qed.

(** [get_one] never hands a [Proxy] to its caller: what it returns is the
    list that [_gather] returns. *)
Lemma get_one_returns_no_proxy (self : ProxyFetcher) (protocols : list Protocols)
    (anonymities : list Anonymities) (w : World) (p : Proxy) :
  (get_one self protocols anonymities w).2 ≠ Ok (PyProxy p).
Proof.
  rewrite get_one_run.
  by destruct (_gather self protocols anonymities 1 w) as [w' [l|e]].
Qed.

(** C3 (the code at the failing input): with one provider that found one
    candidate, and every probe succeeding, [get_one] returns the list that
    holds the confirmed proxy, after one gathering, one filtering and one
    validation with a limit of 1. *)
Theorem get_one_returns_a_list :
  get_one (Sample.fetcher [Sample.provider_single]) [] [] []
  = ([gather_called "single"; filter_called; filter_valid_proxies_called 1],
     Ok (PyList [Sample.proxy_a])).
Proof. vm_compute. reflexivity. Qed.

(** * Further properties *)

(** Closes [e ∉ l] for a list [l] that is written out and holds no [e]. *)
Ltac absent :=
  let H := fresh in
  intros H;
  repeat (apply elem_of_cons in H as [H|H]; [discriminate H|]);
  by apply elem_of_nil in H.

(** ** Parsing what the download provider produces *)

Lemma split_from_no_sep (sep : ascii) (a field : string) :
  Str.count sep a = 0 → Str.split_from sep field a = [field +:+ a].
Proof.
  revert field. induction a as [|c a IH]; intros field Ha.
  - simpl. by rewrite app_empty_r.
  - simpl in *. destruct (Ascii.eqb c sep); [done|].
    rewrite IH by done. by rewrite app_snoc.
Qed.

Lemma split_from_first_field (sep : ascii) (a rest field : string) :
  Str.count sep a = 0 →
  Str.split_from sep field (a +:+ String sep rest)
  = (field +:+ a) :: Str.split_from sep "" rest.
Proof.
  revert field. induction a as [|c a IH]; intros field Ha.
  - rewrite append_nil. simpl. rewrite Ascii.eqb_refl. by rewrite app_empty_r.
  - rewrite append_cons. simpl in *. destruct (Ascii.eqb c sep); [done|].
    rewrite IH by done. by rewrite app_snoc.
Qed.

Lemma split_colon_first (protocol rest : string) :
  Str.count Str.colon protocol = 0 →
  Str.split Str.colon (protocol +:+ ":" +:+ rest)
  = protocol :: Str.split Str.colon rest.
Proof.
  intros Hp. unfold Str.split.
  change (protocol +:+ ":" +:+ rest) with (protocol +:+ String Str.colon rest).
  by rewrite split_from_first_field.
Qed.

(** A string with one separator splits into its two fields. *)
Lemma split_two_fields (line : string) :
  Str.count Str.colon line = 1 →
  ∃ ip port,
    line = ip +:+ ":" +:+ port
    ∧ Str.count Str.colon ip = 0
    ∧ Str.count Str.colon port = 0.
Proof.
  intros Hc.
  pose proof (split_from_length Str.colon line "") as Hl.
  pose proof (join_split_from Str.colon line "") as Hj.
  pose proof (split_from_fields Str.colon line "" eq_refl) as Hf.
  rewrite Hc in Hl.
  destruct (Str.split_from Str.colon "" line) as [|a [|b [|c l]]]; try done.
  exists a, b.
  apply Forall_cons in Hf as [Ha Hf].
  apply Forall_cons in Hf as [Hb _].
  rewrite append_nil in Hj. by rewrite <- Hj.
Qed.

Lemma lower_char_idemp (c : ascii) : Str.lower_char (Str.lower_char c) = Str.lower_char c.
Proof. by destruct c as [[] [] [] [] [] [] [] []]. Qed.

Lemma lower_char_colon (c : ascii) :
  Ascii.eqb (Str.lower_char c) Str.colon = Ascii.eqb c Str.colon.
Proof. by destruct c as [[] [] [] [] [] [] [] []]. Qed.

Lemma lower_idemp (s : string) : Str.lower (Str.lower s) = Str.lower s.
Proof.
  induction s as [|c s IH]; [done|]. simpl. by rewrite lower_char_idemp, IH.
Qed.

Lemma count_colon_lower (s : string) :
  Str.count Str.colon (Str.lower s) = Str.count Str.colon s.
Proof.
  induction s as [|c s IH]; [done|]. simpl. by rewrite lower_char_colon, IH.
Qed.

Lemma raw_proxy_to_object_prefixed
    (new_Proxy : string → string → string → result Proxy)
    (protocol ip port : string) :
  Str.count Str.colon protocol = 0 →
  Str.count Str.colon ip = 0 →
  Str.count Str.colon port = 0 →
  raw_proxy_to_object new_Proxy (protocol +:+ ":" +:+ ip +:+ ":" +:+ port)
  = new_Proxy ip port (Str.lower protocol).
Proof.
  intros Hp Hi Ho. unfold raw_proxy_to_object.
  rewrite split_colon_first, split_colon_first by done.
  unfold Str.split. by rewrite split_from_no_sep by done.
Qed.

(** X1: what [_get_raw_proxies] writes for a line [ip:port] of a response,
    the protocol and a colon in front of the line, [raw_proxy_to_object]
    reads back: the constructor gets the address, the port and the
    lowercased protocol. *)
Theorem parse_of_prefixed_line
    (new_Proxy : string → string → string → result Proxy)
    (protocol ip port : string) :
  Str.count Str.colon protocol = 0 →
  Str.count Str.colon ip = 0 →
  Str.count Str.colon port = 0 →
  raw_proxy_to_object new_Proxy <$> with_protocol protocol [ip +:+ ":" +:+ port]
  = [new_Proxy ip port (Str.lower protocol)].
Proof.
  intros Hp Hi Ho. cbn [with_protocol fmap list_fmap].
  by rewrite raw_proxy_to_object_prefixed.
Qed.

Lemma parse_of_prefixed_line_witness :
  raw_proxy_to_object Proxy_init <$> with_protocol "socks5" ["5.6.7.8" +:+ ":" +:+ "1080"]
  = [Proxy_init "5.6.7.8" "1080" (Str.lower "socks5")].
Proof.
  apply (parse_of_prefixed_line Proxy_init "socks5" "5.6.7.8" "1080");
    reflexivity.
Defined.

(** X2: a line of a response, once the protocol is in front of it, is
    refused with [ProxyParseException] exactly when it does not hold
    exactly one colon: a blank line and an address with colons of its own
    are refused. *)
Theorem prefixed_line_refused_iff (protocol line : string) :
  Str.count Str.colon protocol = 0 →
  (raw_proxy_to_object Proxy_init (protocol +:+ ":" +:+ line) = Raise ProxyParseException
   ↔ Str.count Str.colon line ≠ 1).
Proof.
  intros Hp.
  assert (length (Str.split Str.colon (protocol +:+ ":" +:+ line))
          = S (S (Str.count Str.colon line))) as Hlen.
  { rewrite split_colon_first by done. unfold Str.split. cbn [length].
    by rewrite split_from_length. }
  split.
  - intros Hraise Hc.
    destruct (raw_proxy_to_object_three_fields Proxy_init (protocol +:+ ":" +:+ line))
      as (p & i & o & _ & _ & _ & _ & Hrun); [lia|].
    rewrite Hrun in Hraise. discriminate Hraise.
  - intros Hc. apply raw_proxy_to_object_wrong_count. lia.
Qed.

Lemma prefixed_line_refused_iff_witness :
  raw_proxy_to_object Proxy_init ("http" +:+ ":" +:+ "") = Raise ProxyParseException
  ∧ raw_proxy_to_object Proxy_init ("http" +:+ ":" +:+ "::1:8080")
    = Raise ProxyParseException.
Proof.
  split.
  - apply (proj2 (prefixed_line_refused_iff "http" "" eq_refl)). vm_compute. lia.
  - apply (proj2 (prefixed_line_refused_iff "http" "::1:8080" eq_refl)).
    vm_compute. lia.
Defined.

(** X3: whatever the raw string, [raw_proxy_to_object] either raises
    [ProxyParseException] or calls the constructor with a protocol that has
    no uppercase letter and with three fields that hold no colon; and two
    raw strings that differ only in the case of the protocol are read the
    same. *)
Theorem parsed_fields_shape
    (new_Proxy : string → string → string → result Proxy) (raw : string) :
  (raw_proxy_to_object new_Proxy raw = Raise ProxyParseException
   ∨ ∃ protocol ip port,
       raw_proxy_to_object new_Proxy raw = new_Proxy ip port protocol
       ∧ Str.lower protocol = protocol
       ∧ Str.count Str.colon protocol = 0
       ∧ Str.count Str.colon ip = 0
       ∧ Str.count Str.colon port = 0)
  ∧ (∀ protocol1 protocol2,
       Str.count Str.colon protocol1 = 0 →
       Str.count Str.colon protocol2 = 0 →
       Str.lower protocol1 = Str.lower protocol2 →
       raw_proxy_to_object new_Proxy (protocol1 +:+ ":" +:+ raw)
       = raw_proxy_to_object new_Proxy (protocol2 +:+ ":" +:+ raw)).
Proof.
  split.
  - destruct (decide (length (Str.split Str.colon raw) = 3)) as [Hlen|Hlen].
    + right.
      destruct (raw_proxy_to_object_three_fields new_Proxy raw Hlen)
        as (pr & i & o & _ & H1 & H2 & H3 & Hrun).
      exists (Str.lower pr), i, o.
      by rewrite lower_idemp, count_colon_lower.
    + left. by apply raw_proxy_to_object_wrong_count.
  - intros protocol1 protocol2 H1 H2 Hlow.
    unfold raw_proxy_to_object. rewrite !split_colon_first by done.
    destruct (Str.split Str.colon raw) as [|i [|o [|x l]]]; try done.
    by rewrite Hlow.
Qed.

Lemma parsed_fields_shape_witness :
  raw_proxy_to_object Proxy_init ("SOCKS5" +:+ ":" +:+ "5.6.7.8:1080")
  = raw_proxy_to_object Proxy_init ("socks5" +:+ ":" +:+ "5.6.7.8:1080").
Proof.
  apply (proj2 (parsed_fields_shape Proxy_init "5.6.7.8:1080") "SOCKS5" "socks5");
    reflexivity.
Defined.

(** ** What the download provider returns *)

Lemma _get_raw_proxies_ok_inv (values : list string) (self : ProxyListDownloadProvider)
    (w : World) (proxies : list string) :
  (_get_raw_proxies values self w).2 = Ok proxies →
  Forall (request_succeeds self) values ∧ proxies = values ≫= lines_of self.
Proof.
  unfold _get_raw_proxies. intros Hrun.
  destruct (first_failure (request_succeeds self) values (request_succeeds_dec self))
    as [Hall|(pre & p & post & -> & Hpre & Hfail)].
  - rewrite loop_all_succeed in Hrun by done. by injection Hrun as <-.
  - by rewrite loop_first_failure in Hrun.
Qed.

Lemma elem_of_lines_of (self : ProxyListDownloadProvider) (protocol raw : string) :
  raw ∈ lines_of self protocol
  ↔ ∃ response line,
      session_get (_session self) (url self) protocol = Ok response
      ∧ line ∈ Str.splitlines (text response)
      ∧ raw = protocol +:+ ":" +:+ line.
Proof.
  unfold lines_of, with_protocol.
  destruct (session_get (_session self) (url self) protocol) as [response|e].
  - rewrite list_elem_of_fmap. split.
    + intros (line & -> & Hline). by exists response, line.
    + intros (r & line & [= <-] & Hline & ->). by exists line.
  - split; [by intros ?%elem_of_nil|by intros (r & line & [=] & _)].
Qed.

(** X4: when [_get_raw_proxies] returns, the strings it returns are the
    lines of the responses, each behind the protocol it was asked for and
    a colon, and nothing else. *)
Theorem raw_proxies_are_prefixed_lines (values : list string)
    (self : ProxyListDownloadProvider) (w : World) (proxies : list string) :
  (_get_raw_proxies values self w).2 = Ok proxies →
  ∀ raw,
    raw ∈ proxies
    ↔ ∃ protocol response line,
        protocol ∈ values
        ∧ session_get (_session self) (url self) protocol = Ok response
        ∧ line ∈ Str.splitlines (text response)
        ∧ raw = protocol +:+ ":" +:+ line.
Proof.
  intros Hrun raw. apply _get_raw_proxies_ok_inv in Hrun as [_ ->].
  rewrite list_elem_of_bind. split.
  - intros (protocol & Hraw & Hp).
    apply elem_of_lines_of in Hraw as (response & line & Hget & Hline & ->).
    by exists protocol, response, line.
  - intros (protocol & response & line & Hp & Hget & Hline & ->).
    exists protocol. split; [|done]. apply elem_of_lines_of. by exists response, line.
Qed.

Lemma raw_proxies_are_prefixed_lines_witness :
  "socks4:5.6.7.8:1080"
  ∈ ["http:1.2.3.4:8080"; "http:5.6.7.8:1080"; "https:1.2.3.4:8080";
     "https:5.6.7.8:1080"; "socks4:1.2.3.4:8080"; "socks4:5.6.7.8:1080";
     "socks5:1.2.3.4:8080"; "socks5:5.6.7.8:1080"].
Proof.
  apply (proj2 (raw_proxies_are_prefixed_lines Protocols_values
                  (Sample.download Sample.session_up) [] _ eq_refl
                  "socks4:5.6.7.8:1080")).
  exists "socks4", {| ok := true; text := Sample.two_lines |}, "5.6.7.8:1080".
  split; [|split; [reflexivity|split; [|reflexivity]]].
  - apply elem_of_cons; right. apply elem_of_cons; right.
    apply elem_of_cons; left. reflexivity.
  - apply elem_of_cons; right. apply elem_of_cons; left. reflexivity.
Defined.

Lemma single_line_app (a b : string) :
  single_line (a +:+ b) = single_line a && single_line b.
Proof.
  induction a as [|c a IH]; [done|].
  rewrite append_cons. simpl. rewrite IH. by rewrite andb_assoc.
Qed.

Lemma single_line_snoc (line : string) (c : ascii) :
  single_line line = true → Str.is_linebreak c = false →
  single_line (Str.snoc line c) = true.
Proof.
  intros Hl Hc. unfold Str.snoc. rewrite single_line_app, Hl. simpl. by rewrite Hc.
Qed.

(** No line that [str.splitlines()] gives holds a line boundary. *)
Lemma splitlines_from_single_line (s : string) :
  (∀ line, single_line line = true →
     Forall (λ l, single_line l = true) (Str.splitlines_from line s))
  ∧ (∀ c line, single_line line = true →
       Forall (λ l, single_line l = true) (Str.splitlines_from line (String c s))).
Proof.
  induction s as [|d s [IH1 IH2]].
  - split.
    + intros line Hl. simpl. destruct line; by repeat constructor.
    + intros c line Hl. simpl. destruct (Str.is_linebreak c) eqn:Hc.
      * by repeat constructor.
      * pose proof (single_line_snoc line c Hl Hc) as Hs.
        destruct (Str.snoc line c); by repeat constructor.
  - split; [by apply IH2|].
    intros c line Hl. cbn [Str.splitlines_from].
    destruct (Str.is_linebreak c) eqn:Hc.
    + destruct (Ascii.eqb c Str.CR && Ascii.eqb d Str.LF).
      * constructor; [done|]. by apply IH1.
      * constructor; [done|]. by apply IH2.
    + apply IH2. by apply single_line_snoc.
Qed.

(** X5: when the protocols hold no line boundary, no string that
    [_get_raw_proxies] returns holds one: every raw proxy is one line. *)
Theorem raw_proxies_are_single_lines (values : list string)
    (self : ProxyListDownloadProvider) (w : World) (proxies : list string) :
  Forall (λ protocol, single_line protocol = true) values →
  (_get_raw_proxies values self w).2 = Ok proxies →
  Forall (λ raw, single_line raw = true) proxies.
Proof.
  intros Hvalues Hrun. apply _get_raw_proxies_ok_inv in Hrun as [_ ->].
  apply Forall_forall. intros raw Hraw.
  apply list_elem_of_bind in Hraw as (protocol & Hraw & Hp).
  apply elem_of_lines_of in Hraw as (response & line & _ & Hline & ->).
  rewrite Forall_forall in Hvalues.
  rewrite !single_line_app, (Hvalues protocol Hp). cbn.
  pose proof (proj1 (splitlines_from_single_line (text response)) "" eq_refl) as Hs.
  rewrite Forall_forall in Hs. by apply Hs.
Qed.

Lemma raw_proxies_are_single_lines_witness :
  Forall (λ raw, single_line raw = true)
    ["http:1.2.3.4:8080"; "http:5.6.7.8:1080"; "https:1.2.3.4:8080";
     "https:5.6.7.8:1080"; "socks4:1.2.3.4:8080"; "socks4:5.6.7.8:1080";
     "socks5:1.2.3.4:8080"; "socks5:5.6.7.8:1080"].
Proof.
  apply (raw_proxies_are_single_lines Protocols_values
           (Sample.download Sample.session_up) []).
  - repeat constructor.
  - reflexivity.
Defined.

(** X6: when the protocols hold no colon and every line of every response
    holds exactly one, every string that [_get_raw_proxies] returns is read
    by [raw_proxy_to_object] without [ProxyParseException]: it is
    [protocol:ip:port] for one of the protocols asked for, and the
    constructor gets the address, the port and the lowercased protocol. *)
Theorem well_formed_responses_parse
    (new_Proxy : string → string → string → result Proxy)
    (values : list string) (self : ProxyListDownloadProvider) (w : World)
    (proxies : list string) :
  Forall (λ protocol, Str.count Str.colon protocol = 0) values →
  (∀ protocol response line,
     protocol ∈ values →
     session_get (_session self) (url self) protocol = Ok response →
     line ∈ Str.splitlines (text response) →
     Str.count Str.colon line = 1) →
  (_get_raw_proxies values self w).2 = Ok proxies →
  Forall (λ raw,
            ∃ protocol ip port,
              protocol ∈ values
              ∧ raw = protocol +:+ ":" +:+ ip +:+ ":" +:+ port
              ∧ raw_proxy_to_object new_Proxy raw
                = new_Proxy ip port (Str.lower protocol))
         proxies.
Proof.
  intros Hvalues Hlines Hrun. apply _get_raw_proxies_ok_inv in Hrun as [_ ->].
  apply Forall_forall. intros raw Hraw.
  apply list_elem_of_bind in Hraw as (protocol & Hraw & Hp).
  apply elem_of_lines_of in Hraw as (response & line & Hget & Hline & ->).
  destruct (split_two_fields line (Hlines protocol response line Hp Hget Hline))
    as (ip & port & -> & Hi & Ho).
  rewrite Forall_forall in Hvalues.
  exists protocol, ip, port. split; [done|]. split; [done|].
  by apply raw_proxy_to_object_prefixed; [apply Hvalues| |].
Qed.

Lemma well_formed_responses_parse_witness :
  Forall (λ raw,
            ∃ protocol ip port,
              protocol ∈ Protocols_values
              ∧ raw = protocol +:+ ":" +:+ ip +:+ ":" +:+ port
              ∧ raw_proxy_to_object Proxy_init raw
                = Proxy_init ip port (Str.lower protocol))
    ["http:1.2.3.4:8080"; "http:5.6.7.8:1080"; "https:1.2.3.4:8080";
     "https:5.6.7.8:1080"; "socks4:1.2.3.4:8080"; "socks4:5.6.7.8:1080";
     "socks5:1.2.3.4:8080"; "socks5:5.6.7.8:1080"].
Proof.
  apply (well_formed_responses_parse Proxy_init Protocols_values
           (Sample.download Sample.session_up) []).
  - repeat constructor.
  - intros protocol response line _ Hget Hline.
    injection Hget as <-.
    change (Str.splitlines (text {| ok := true; text := Sample.two_lines |}))
      with ["1.2.3.4:8080"; "5.6.7.8:1080"] in Hline.
    apply elem_of_cons in Hline as [->|Hline]; [reflexivity|].
    apply elem_of_cons in Hline as [->|Hline]; [reflexivity|].
    by apply elem_of_nil in Hline.
  - reflexivity.
Defined.

(** ** The aggregation step: which candidate stays *)

Lemma aggregation_ok (self : ProxyFetcher) (w : World) :
  Forall returns (_proxy_providers self) →
  (_get_all_proxies_from_providers self w).2
  = Ok (list_of_set (set_of (_proxy_providers self ≫= contribution))).
Proof.
  intros Hall. rewrite _get_all_proxies_from_providers_run. cbn [snd].
  by rewrite (chain_all_return _ Hall).
Qed.

Lemma list_of_set_from (l : list Proxy) (p : Proxy) :
  p ∈ list_of_set (set_of l) → p ∈ l.
Proof.
  intros [k Hk]%elem_of_list_of_set.
  by apply foldl_set_add_from in Hk as [Hk|Hk]; [rewrite lookup_empty in Hk|].
Qed.

Lemma list_of_set_covers (l : list Proxy) (p : Proxy) :
  p ∈ l → ∃ q, q ∈ list_of_set (set_of l) ∧ proxy_key q = proxy_key p.
Proof.
  intros Hp. destruct (foldl_set_add_covers l ∅ p Hp) as [q Hq].
  exists q. split; [apply elem_of_list_of_set; by exists (proxy_key p)|].
  by apply (set_of_keyed _ _ _ Hq).
Qed.

Lemma list_of_set_NoDup_elements (l : list Proxy) : NoDup (list_of_set (set_of l)).
Proof.
  apply (NoDup_fmap_1 proxy_key), list_of_set_NoDup, set_of_keyed.
Qed.

(** X7: of the candidates that are equal to one another, the aggregation
    step keeps the one that comes first, in provider order, and drops the
    others. *)
Theorem aggregation_keeps_first (self : ProxyFetcher) (w : World)
    (pre : list Proxy) (p : Proxy) (post : list Proxy) :
  Forall returns (_proxy_providers self) →
  _proxy_providers self ≫= contribution = pre ++ p :: post →
  Forall (λ q, proxy_key q ≠ proxy_key p) pre →
  ∃ proxies,
    (_get_all_proxies_from_providers self w).2 = Ok proxies
    ∧ p ∈ proxies
    ∧ ∀ q, q ∈ proxies → proxy_key q = proxy_key p → q = p.
Proof.
  intros Hall Hl Hpre. eexists. split; [by apply aggregation_ok|].
  rewrite Hl. pose proof (set_of_first pre p post Hpre) as Hp. split.
  - apply elem_of_list_of_set. by exists (proxy_key p).
  - intros q [k Hk]%elem_of_list_of_set Hkey.
    pose proof (set_of_keyed _ _ _ Hk) as Hkq. congruence.
Qed.

Lemma aggregation_keeps_first_witness :
  ∃ proxies,
    (_get_all_proxies_from_providers
       (Sample.fetcher [Sample.provider_twin; Sample.provider_up]) []).2 = Ok proxies
    ∧ Sample.proxy_a_elite ∈ proxies
    ∧ ∀ q, q ∈ proxies → proxy_key q = proxy_key Sample.proxy_a_elite →
        q = Sample.proxy_a_elite.
Proof.
  apply (aggregation_keeps_first
           (Sample.fetcher [Sample.provider_twin; Sample.provider_up]) []
           [] Sample.proxy_a_elite [Sample.proxy_a; Sample.proxy_a; Sample.proxy_b]).
  - repeat constructor; by eexists.
  - reflexivity.
  - constructor.
Defined.

(** X8: the aggregation step invents no candidate and returns no more
    candidates than the providers found; it returns the empty list exactly
    when no provider found anything. *)
Theorem aggregation_size (self : ProxyFetcher) (w : World) (proxies : list Proxy) :
  (_get_all_proxies_from_providers self w).2 = Ok proxies →
  proxies ⊆ _proxy_providers self ≫= contribution
  ∧ (length proxies ≤ length (_proxy_providers self ≫= contribution))%nat
  ∧ (proxies = [] ↔ Forall (λ provider, gather_outcome provider = Ok []) (_proxy_providers self)).
Proof.
  rewrite _get_all_proxies_from_providers_run. cbn [snd].
  destruct (chain_from_iterable _) as [l|e] eqn:Hchain; [|done].
  intros [= <-]. apply chain_ok_inv in Hchain as [Hall ->].
  assert (list_of_set (set_of (_proxy_providers self ≫= contribution))
          ⊆ _proxy_providers self ≫= contribution) as Hsub.
  { intros p. apply list_of_set_from. }
  split; [done|]. split.
  - apply submseteq_length, NoDup_submseteq; [apply list_of_set_NoDup_elements|done].
  - split.
    + intros Hnil. apply Forall_forall. intros provider Hprov.
      rewrite Forall_forall in Hall. destruct (Hall provider Hprov) as [[|p l] Hl]; [done|].
      destruct (list_of_set_covers (_proxy_providers self ≫= contribution) p) as (q & Hq & _).
      { apply list_elem_of_bind. exists provider.
        rewrite (contribution_ok provider _ Hl). split; [by left|done]. }
      rewrite Hnil in Hq. by apply elem_of_nil in Hq.
    + intros Hempty.
      assert (_proxy_providers self ≫= contribution = []) as ->; [|done].
      clear Hall Hsub. induction Hempty as [|provider providers Hp _ IH]; [done|].
      by rewrite bind_cons, (contribution_ok provider [] Hp), IH.
Qed.

Lemma aggregation_size_witness :
  [Sample.proxy_b; Sample.proxy_a]
  ⊆ _proxy_providers (Sample.fetcher [Sample.provider_up; Sample.provider_twin])
      ≫= contribution
  ∧ (length [Sample.proxy_b; Sample.proxy_a]
     ≤ length (_proxy_providers (Sample.fetcher [Sample.provider_up; Sample.provider_twin])
                 ≫= contribution))%nat
  ∧ ([Sample.proxy_b; Sample.proxy_a] = []
     ↔ Forall (λ provider, gather_outcome provider = Ok [])
         (_proxy_providers (Sample.fetcher [Sample.provider_up; Sample.provider_twin]))).
Proof.
  apply (aggregation_size (Sample.fetcher [Sample.provider_up; Sample.provider_twin]) []).
  vm_compute. reflexivity.
Defined.

(** X9: when the candidates that the providers found are all different,
    the aggregation step returns them all: the result is a rearrangement of
    what the providers found. *)
Theorem aggregation_of_distinct (self : ProxyFetcher) (w : World) :
  Forall returns (_proxy_providers self) →
  NoDup (proxy_key <$> (_proxy_providers self ≫= contribution)) →
  ∃ proxies,
    (_get_all_proxies_from_providers self w).2 = Ok proxies
    ∧ proxies ≡ₚ _proxy_providers self ≫= contribution.
Proof.
  intros Hall Hnd. eexists. split; [by apply aggregation_ok|].
  set (l := _proxy_providers self ≫= contribution) in *.
  apply NoDup_Permutation.
  - apply list_of_set_NoDup_elements.
  - by apply (NoDup_fmap_1 proxy_key).
  - intros p. split; [apply list_of_set_from|].
    intros Hp. destruct (list_of_set_covers l p Hp) as (q & Hq & Hkey).
    assert (q = p) as <-; [|done].
    pose proof (list_of_set_from l q Hq) as Hql.
    apply list_elem_of_lookup in Hql as [i Hi].
    apply list_elem_of_lookup in Hp as [j Hj].
    assert (i = j) as ->.
    { apply (NoDup_lookup (proxy_key <$> l) i j (proxy_key q)); [done| |].
      - by rewrite list_lookup_fmap, Hi.
      - by rewrite list_lookup_fmap, Hj, Hkey. }
    congruence.
Qed.

Lemma aggregation_of_distinct_witness :
  ∃ proxies,
    (_get_all_proxies_from_providers
       (Sample.fetcher [Sample.provider_up]) []).2 = Ok proxies
    ∧ proxies ≡ₚ [Sample.proxy_a; Sample.proxy_b].
Proof.
  apply (aggregation_of_distinct (Sample.fetcher [Sample.provider_up]) []).
  - repeat constructor; by eexists.
  - apply (bool_decide_unpack _). vm_compute. reflexivity.
Defined.

(** ** The pipeline: what it calls and what it hands on *)

Lemma _get_all_proxies_from_providers_world (self : ProxyFetcher) (w : World) :
  (_get_all_proxies_from_providers self w).1 = w ++ gather_calls self.
Proof. by rewrite _get_all_proxies_from_providers_run. Qed.

Lemma aggregation_raises (self : ProxyFetcher) (w : World) :
  ¬ Forall returns (_proxy_providers self) →
  ∃ e, (_get_all_proxies_from_providers self w).2 = Raise e.
Proof.
  intros Hnot. rewrite _get_all_proxies_from_providers_run. cbn [snd].
  destruct (chain_from_iterable _) as [l|e] eqn:Hchain; [|by exists e].
  by apply chain_ok_inv in Hchain as [Hall _].
Qed.

(** X10: one call of [get] or of [get_one] calls the [gather()] of every
    provider once, in provider order; when all of them return, it then
    filters once and validates once, with the limit it was given ([1] for
    [get_one]); when one of them raises, it neither filters nor validates. *)
Theorem get_calls (self : ProxyFetcher) (protocols : list Protocols)
    (anonymities : list Anonymities) (limit : Z) (w : World) :
  is_Some (_proxy_filterer self) →
  is_Some (_proxy_validator self) →
  (Forall returns (_proxy_providers self) →
     (get self protocols anonymities limit w).1
     = w ++ gather_calls self ++ [filter_called; filter_valid_proxies_called limit]
     ∧ (get_one self protocols anonymities w).1
       = w ++ gather_calls self ++ [filter_called; filter_valid_proxies_called 1])
  ∧ (¬ Forall returns (_proxy_providers self) →
       (get self protocols anonymities limit w).1 = w ++ gather_calls self
       ∧ (get_one self protocols anonymities w).1 = w ++ gather_calls self).
Proof.
  intros [f Hf] [v Hv]. rewrite get_run, get_one_run. split.
  - intros Hall. pose proof (aggregation_ok self w Hall) as Hagg.
    rewrite !(_gather_aggregation_returns _ _ _ _ _ _ _ _ Hagg Hf Hv).
    rewrite _get_all_proxies_from_providers_world, <- !app_assoc.
    split; by destruct (ProxyValidator.filter_valid_proxies _ _ _).
  - intros Hnot. destruct (aggregation_raises self w Hnot) as [e Hagg].
    rewrite !(_gather_aggregation_raises _ _ _ _ _ _ Hagg).
    by rewrite _get_all_proxies_from_providers_world.
Qed.

Lemma get_calls_witness :
  ((get (Sample.fetcher [Sample.provider_up; Sample.provider_twin]) [HTTP] [ELITE] 5 []).1
   = [gather_called "up"; gather_called "twin"; filter_called;
      filter_valid_proxies_called 5]
   ∧ (get_one (Sample.fetcher [Sample.provider_up; Sample.provider_twin]) [HTTP] [ELITE] []).1
     = [gather_called "up"; gather_called "twin"; filter_called;
        filter_valid_proxies_called 1])
  ∧ ((get (Sample.fetcher [Sample.provider_down; Sample.provider_up]) [] [] 5 []).1
     = [gather_called "down"; gather_called "up"]
     ∧ (get_one (Sample.fetcher [Sample.provider_down; Sample.provider_up]) [] [] []).1
       = [gather_called "down"; gather_called "up"]).
Proof.
  split.
  - apply (proj1 (get_calls (Sample.fetcher [Sample.provider_up; Sample.provider_twin])
                    [HTTP] [ELITE] 5 [] (mk_is_Some _ _ eq_refl) (mk_is_Some _ _ eq_refl))).
    repeat constructor; by eexists.
  - apply (proj2 (get_calls (Sample.fetcher [Sample.provider_down; Sample.provider_up])
                    [] [] 5 [] (mk_is_Some _ _ eq_refl) (mk_is_Some _ _ eq_refl))).
    intros Hall. apply Forall_cons in Hall as [[l Hl] _]. discriminate Hl.
Defined.

(** X11: when every provider returns, [get] hands the deduplicated
    candidates, the protocols and the anonymities to the filterer, what the
    filterer gives and the limit to the validator, and what the validator
    gives, when it is not empty, to the caller, as it is: the fetcher itself
    drops nothing and cuts nothing to the limit. *)
Theorem get_returns_validator_output (self : ProxyFetcher) (protocols : list Protocols)
    (anonymities : list Anonymities) (limit : Z) (w : World)
    (filterer : ProxyFilterer.t) (validator : ProxyValidator.t) :
  Forall returns (_proxy_providers self) →
  _proxy_filterer self = Some filterer →
  _proxy_validator self = Some validator →
  ProxyValidator.filter_valid_proxies validator
    (ProxyFilterer.filter filterer
       (list_of_set (set_of (_proxy_providers self ≫= contribution)))
       protocols anonymities) limit ≠ [] →
  (get self protocols anonymities limit w).2
  = Ok (PyList (ProxyValidator.filter_valid_proxies validator
                  (ProxyFilterer.filter filterer
                     (list_of_set (set_of (_proxy_providers self ≫= contribution)))
                     protocols anonymities) limit)).
Proof.
  intros Hall Hf Hv Hne. rewrite get_run.
  rewrite (_gather_aggregation_returns _ _ _ _ _ _ _ _ (aggregation_ok self w Hall) Hf Hv).
  by destruct (ProxyValidator.filter_valid_proxies _ _ _).
Qed.

Lemma get_returns_validator_output_witness :
  (get (sample_fetcher_unbounded [Sample.provider_up]) [] [] 1 []).2
  = Ok (PyList (list_of_set (set_of [Sample.proxy_a; Sample.proxy_b]))).
Proof.
  apply (get_returns_validator_output (sample_fetcher_unbounded [Sample.provider_up])
           [] [] 1 [] Sample.filterer (sample_validator_unbounded (EventLoop 0))).
  - repeat constructor; by eexists.
  - reflexivity.
  - reflexivity.
  - vm_compute. discriminate.
Defined.

(** X12: a fetcher whose filterer is [None] raises [AttributeError] from
    [get] once the providers have returned, before any filtering; one that
    has a filterer and whose validator is [None] raises it after the
    filtering.  Assigning [None] to the attribute gives such a fetcher. *)
Theorem get_without_collaborator (self : ProxyFetcher) (protocols : list Protocols)
    (anonymities : list Anonymities) (limit : Z) (w : World) :
  Forall returns (_proxy_providers self) →
  (_proxy_filterer self = None →
     get self protocols anonymities limit w
     = (w ++ gather_calls self, Raise AttributeError))
  ∧ (is_Some (_proxy_filterer self) → _proxy_validator self = None →
     get self protocols anonymities limit w
     = (w ++ gather_calls self ++ [filter_called], Raise AttributeError)).
Proof.
  intros Hall. pose proof (aggregation_ok self w Hall) as Hagg.
  pose proof (_get_all_proxies_from_providers_world self w) as Hw.
  rewrite get_run. unfold _gather.
  destruct (_get_all_proxies_from_providers self w) as [w' r] eqn:Hrun.
  cbn [fst snd] in Hagg, Hw. subst w' r.
  rewrite (bind_ok _ _ _ _ _ Hrun). split.
  - by intros ->.
  - intros [f ->] ->. cbn [method_of]. rewrite bind_ret, bind_emit.
    by rewrite <- app_assoc.
Qed.

Lemma get_without_collaborator_witness :
  get (object_setattr (Sample.fetcher [Sample.provider_up]) attr_proxy_filterer None)
    [] [] 0 []
  = ([gather_called "up"], Raise AttributeError)
  ∧ get (object_setattr (Sample.fetcher [Sample.provider_up]) attr_proxy_validator None)
      [] [] 0 []
    = ([gather_called "up"; filter_called], Raise AttributeError).
Proof.
  assert (Forall returns [Sample.provider_up]) as Hall.
  { repeat constructor. by eexists. }
  split.
  - apply (proj1 (get_without_collaborator
                    (object_setattr (Sample.fetcher [Sample.provider_up])
                       attr_proxy_filterer None) [] [] 0 [] Hall)).
    reflexivity.
  - apply (proj2 (get_without_collaborator
                    (object_setattr (Sample.fetcher [Sample.provider_up])
                       attr_proxy_validator None) [] [] 0 [] Hall)).
    + by eexists.
    + reflexivity.
Defined.

(** ** The construction: which collaborators the fetcher ends up with *)

(** X13: [__new_validator] builds the validator on the loop of the fetcher.
    A fetcher that has a loop keeps it and [get_event_loop] is not called;
    one that has none gets the loop of [get_event_loop], stored in its
    [loop] attribute before the validator is built on it.  No other
    attribute changes. *)
Theorem new_validator_shares_loop (env : Env) (self : ProxyFetcher) (w : World) :
  ∃ l self' w',
    __new_validator env self w = (w', Ok (self', env_ProxyValidator env l))
    ∧ loop self' = Some l
    ∧ (∀ a, a ≠ attr_loop → getattr self' a = getattr self a)
    ∧ (∀ l0, loop self = Some l0 →
         l = l0 ∧ self' = self ∧ w' = w ++ [ProxyValidator_created l0])
    ∧ (loop self = None →
         l = env_get_event_loop env
         ∧ w' = w ++ [get_event_loop_called; ProxyValidator_created l]).
Proof.
  unfold __new_validator. destruct (loop self) as [l0|] eqn:Hloop.
  - exists l0, self, (w ++ [ProxyValidator_created l0]).
    split; [done|]. split; [done|]. split; [done|]. split; [|done].
    by intros ? [= <-].
  - exists (env_get_event_loop env), (object_setattr self attr_loop (Some (env_get_event_loop env))),
      (w ++ [get_event_loop_called; ProxyValidator_created (env_get_event_loop env)]).
    split.
    { cbv -[app env_get_event_loop env_ProxyValidator _proxy_providers _proxy_validator
              _proxy_filterer debug]. by rewrite <- app_assoc. }
    split; [done|]. split; [|done].
    intros a Ha. by apply getattr_object_setattr_other.
Qed.

Lemma new_validator_shares_loop_witness :
  ∃ l self' w',
    __new_validator (Sample.env true) blank [] = (w', Ok (self', Sample.validator l))
    ∧ loop self' = Some l
    ∧ l = EventLoop 0
    ∧ w' = [get_event_loop_called; ProxyValidator_created l].
Proof.
  destruct (new_validator_shares_loop (Sample.env true) blank [])
    as (l & self' & w' & Hrun & Hloop & _ & _ & Hnew).
  exists l, self', w'. split; [exact Hrun|]. split; [exact Hloop|].
  apply Hnew. reflexivity.
Defined.

(** X14: a construction with connectivity keeps the providers, the [debug]
    flag and every collaborator it was given.  With a validator given it
    builds none, does not call [get_event_loop] and leaves the loop as it
    was given, [None] included; with a filterer given it builds none. *)
Theorem construction_keeps_injected (env : Env) (providers : list IProxyProvider)
    (validator : option ProxyValidator.t) (filterer : option ProxyFilterer.t)
    (loop0 : option AbstractEventLoop) (debug0 : bool) (w : World) :
  env_has_internet_connection env = true →
  ∃ self called,
    __init__ env providers validator filterer loop0 debug0 w = (w ++ called, Ok self)
    ∧ _proxy_providers self = providers
    ∧ debug self = debug0
    ∧ (∀ v, validator = Some v →
         _proxy_validator self = Some v
         ∧ loop self = loop0
         ∧ (get_event_loop_called ∉ called)
         ∧ (∀ l, ProxyValidator_created l ∉ called))
    ∧ (∀ f, filterer = Some f →
         _proxy_filterer self = Some f ∧ ProxyFilterer_created ∉ called).
Proof.
  intros Honline. rewrite __init___run, Honline.
  eexists _, _. split; [done|]. split; [done|]. split; [done|]. split.
  - intros v ->. split; [done|]. split; [done|].
    unfold construction_calls.
    destruct filterer; cbn [app]; (split; [absent|intros l; absent]).
  - intros f ->. split; [done|].
    unfold construction_calls.
    destruct validator, loop0; cbn [app]; absent.
Qed.

Lemma construction_keeps_injected_witness :
  ∃ self called,
    __init__ (Sample.env true) [Sample.provider_up]
      (Some (Sample.validator_dead (EventLoop 3))) (Some Sample.filterer) None true []
    = ([] ++ called, Ok self)
    ∧ _proxy_validator self = Some (Sample.validator_dead (EventLoop 3))
    ∧ loop self = None
    ∧ _proxy_filterer self = Some Sample.filterer.
Proof.
  destruct (construction_keeps_injected (Sample.env true) [Sample.provider_up]
              (Some (Sample.validator_dead (EventLoop 3))) (Some Sample.filterer)
              None true [] eq_refl)
    as (self & called & Hrun & _ & _ & Hv & Hf).
  exists self, called. split; [exact Hrun|].
  destruct (Hv _ eq_refl) as (Hval & Hloop & _).
  destruct (Hf _ eq_refl) as [Hfil _].
  split; [exact Hval|]. split; [exact Hloop|exact Hfil].
Defined.

(** X15: a construction with connectivity builds the collaborators it was
    not given: the filterer, and the validator, which it builds on the loop
    it was given or, for want of one, on the loop of [get_event_loop]; that
    loop is then the [loop] attribute of the fetcher.  The filterer is built
    before the validator. *)
Theorem construction_builds_missing (env : Env) (providers : list IProxyProvider)
    (validator : option ProxyValidator.t) (filterer : option ProxyFilterer.t)
    (loop0 : option AbstractEventLoop) (debug0 : bool) (w : World) :
  env_has_internet_connection env = true →
  ∃ self,
    (__init__ env providers validator filterer loop0 debug0 w).2 = Ok self
    ∧ (filterer = None → _proxy_filterer self = Some (env_ProxyFilterer env))
    ∧ (validator = None →
         ∃ l, loop self = Some l
              ∧ _proxy_validator self = Some (env_ProxyValidator env l)
              ∧ (∀ l0, loop0 = Some l0 → l = l0)
              ∧ (loop0 = None → l = env_get_event_loop env))
    ∧ (filterer = None → validator = None →
         ∃ l before, (__init__ env providers validator filterer loop0 debug0 w).1
                     = before ++ [ProxyValidator_created l]
                     ∧ ProxyFilterer_created ∈ before).
Proof.
  intros Honline. rewrite __init___run, Honline. cbn [fst snd].
  eexists. split; [done|]. split; [by intros ->|]. split.
  - intros ->. exists (loop_or_new env loop0). split; [done|]. split; [done|].
    split; [by intros ? ->|by intros ->].
  - intros -> ->. unfold construction_calls.
    exists (loop_or_new env loop0).
    exists (w ++ [init_logger_called debug0; has_internet_connection_called;
                  ProxyFilterer_created]
              ++ match loop0 with Some _ => [] | None => [get_event_loop_called] end).
    split; [destruct loop0; cbn [app]; by rewrite <- !app_assoc|].
    apply elem_of_app. right. apply elem_of_app. left.
    do 2 (apply elem_of_cons; right). apply elem_of_cons. by left.
Qed.

Lemma construction_builds_missing_witness :
  ∃ self,
    (__init__ (Sample.env true) [Sample.provider_up] None None (Some (EventLoop 5))
       false []).2 = Ok self
    ∧ _proxy_filterer self = Some Sample.filterer
    ∧ loop self = Some (EventLoop 5)
    ∧ _proxy_validator self = Some (Sample.validator (EventLoop 5)).
Proof.
  destruct (construction_builds_missing (Sample.env true) [Sample.provider_up] None None
              (Some (EventLoop 5)) false [] eq_refl)
    as (self & Hrun & Hf & Hv & _).
  exists self. split; [exact Hrun|]. split; [exact (Hf eq_refl)|].
  destruct (Hv eq_refl) as (l & Hloop & Hval & Hgiven & _).
  rewrite (Hgiven (EventLoop 5) eq_refl) in Hloop, Hval.
  split; [exact Hloop|exact Hval].
Defined.

(** X16: every construction calls [init_logger] exactly once, with the
    [debug] flag it was given, and does so before the connectivity check,
    so also when the construction then fails. *)
Theorem construction_sets_up_logger_once (env : Env) (providers : list IProxyProvider)
    (validator : option ProxyValidator.t) (filterer : option ProxyFilterer.t)
    (loop0 : option AbstractEventLoop) (debug0 : bool) (w : World) :
  ∃ rest,
    (__init__ env providers validator filterer loop0 debug0 w).1
    = w ++ init_logger_called debug0 :: has_internet_connection_called :: rest
    ∧ init_logger_calls rest = [].
Proof.
  rewrite __init___run. destruct (env_has_internet_connection env); cbn [fst].
  - exists (construction_calls env validator filterer loop0). split; [done|].
    unfold construction_calls. by destruct filterer, validator, loop0.
  - by exists [].
Qed.

(** X17: attribute writes compose as plain stores: of two writes to one
    attribute the later one stays, writes to different attributes can be
    made in either order, and writing back the value an attribute holds
    leaves the fetcher as it was.  The logger is another matter: every
    write to [debug] calls [init_logger], also when the value does not
    change. *)
Theorem setattr_composes (self : ProxyFetcher) (w : World) :
  (∀ a (v1 v2 : attr_type a),
     ((__setattr__ self a v1 ≫= λ self', __setattr__ self' a v2) w).2
     = (__setattr__ self a v2 w).2)
  ∧ (∀ a b (va : attr_type a) (vb : attr_type b), a ≠ b →
       ((__setattr__ self a va ≫= λ self', __setattr__ self' b vb) w).2
       = ((__setattr__ self b vb ≫= λ self', __setattr__ self' a va) w).2)
  ∧ (∀ a, (__setattr__ self a (getattr self a) w).2 = Ok self)
  ∧ (__setattr__ self attr_debug (debug self) w).1
    = w ++ [init_logger_called (debug self)].
Proof.
  split; [|split; [|split]].
  - intros a v1 v2.
    rewrite (bind_ok _ _ _ _ _ (__setattr___run self a v1 w)), !__setattr___run.
    by destruct a.
  - intros a b va vb Hab.
    rewrite (bind_ok _ _ _ _ _ (__setattr___run self a va w)).
    rewrite (bind_ok _ _ _ _ _ (__setattr___run self b vb w)).
    rewrite !__setattr___run. by destruct a, b.
  - intros a. rewrite __setattr___run. by destruct a, self.
  - by rewrite __setattr___run.
Qed.

Lemma setattr_composes_witness :
  ((__setattr__ (Sample.fetcher []) attr_debug true
    ≫= λ self', __setattr__ self' attr_loop None) []).2
  = ((__setattr__ (Sample.fetcher []) attr_loop None
      ≫= λ self', __setattr__ self' attr_debug true) []).2.
Proof.
  apply (proj1 (proj2 (setattr_composes (Sample.fetcher []) []))
           attr_debug attr_loop true None).
  discriminate.
Defined.
